(** * and-desk: display drivers, touch pipeline and screen router

    A shallow embedding of [display_driver.py], [ui.py] (touch helpers) and
    [ui-both-displays.py] (router, focus timer, main loop), with the
    properties of the specification stated and proved over it.

    Conventions.
    - Python [int] is [Z]; bytes are [Z] in [0, 256).
    - Python [float] is IEEE binary64, embedded as Rocq's primitive [float].
    - Python exceptions are the [Raise] branch of [result].
    - The GPIO lines, the lock and the SPI device are observed through the
      list of [event]s a call performs, in program order. *)

From Stdlib Require Import ZArith Lia Bool.
From Stdlib Require Import Floats.PrimFloat Floats.SpecFloat Floats.FloatOps.
From Stdlib Require Import Floats.FloatAxioms.
From Stdlib Require Import Numbers.Cyclic.Int63.Uint63.
From stdpp Require Import base list sorting strings gmap.

Open Scope Z_scope.

(* ================================================================== *)
(** * Python primitives *)
(* ================================================================== *)

Module Py.

Inductive exn : Type :=
| IndexError
| ValueError
| ZeroDivisionError
| OverflowError.

Inductive result (A : Type) : Type :=
| Ok (a : A)
| Raise (e : exn).
Arguments Ok {A} a.
Arguments Raise {A} e.

Definition bind {A B} (m : result A) (k : A -> result B) : result B :=
  match m with
  | Ok a => k a
  | Raise e => Raise e
  end.

(** [seq[i]] for a non-negative index. *)
Definition getitem {A} (l : list A) (i : nat) : result A :=
  match l !! i with
  | Some a => Ok a
  | None => Raise IndexError
  end.

(** [buf[i] = v] on a [bytearray]: the index must exist and the value must
    be in [range(256)]. *)
Definition bytearray_setitem (buf : list Z) (i : nat) (v : Z) : result (list Z) :=
  if decide (i < length buf)%nat then
    if decide (0 <= v < 256) then Ok (<[i:=v]> buf) else Raise ValueError
  else Raise IndexError.

(** [bytearray(n)]: [n] zero bytes; a negative count raises. *)
Definition bytearray (n : Z) : result (list Z) :=
  if n <? 0 then Raise ValueError else Ok (replicate (Z.to_nat n) 0).

(** [float(z)].  Exact for [|z| <= 2^53], which covers every integer the
    program converts (13-bit samples, calibration constants, extents).
    Larger integers are outside the model: from [2^63] on the conversion
    here wraps, where Python rounds or raises [OverflowError]. *)
Definition float_of_int (z : Z) : float :=
  if z <? 0 then PrimFloat.opp (PrimFloat.of_uint63 (Uint63.of_Z (- z)))
  else PrimFloat.of_uint63 (Uint63.of_Z z).

(** [a / b] on two ints: true division, [ZeroDivisionError] on [b == 0]. *)
Definition truediv (a b : Z) : result float :=
  if b =? 0 then Raise ZeroDivisionError
  else Ok (PrimFloat.div (float_of_int a) (float_of_int b)).

(** [f * n] with a float and an int. *)
Definition fmul_int (f : float) (n : Z) : float :=
  PrimFloat.mul f (float_of_int n).

(** [int(f)]: truncation toward zero; infinities and NaN raise. *)
Definition int_of_float (f : float) : result Z :=
  match Prim2SF f with
  | S754_zero _ => Ok 0
  | S754_finite s m e =>
      let a := if 0 <=? e then Z.pos m * 2 ^ e else Z.pos m / 2 ^ (- e) in
      Ok (if s then - a else a)
  | S754_infinity _ => Raise OverflowError
  | S754_nan => Raise ValueError
  end.

(** Truth value of a [str]. *)
Definition truthy_str (s : string) : bool :=
  match s with
  | EmptyString => false
  | _ => true
  end.

(** [if v:] for a value that is [None] or a [str]: the value when it is
    true, nothing otherwise. *)
Definition if_true (v : option string) : option string :=
  match v with
  | Some s => if truthy_str s then Some s else None
  | None => None
  end.

End Py.

Import Py.

Notation "'let*' x ':=' m 'in' k" := (Py.bind m (fun x => k))
  (at level 10, x name, m at level 100, k at level 200).

(* ================================================================== *)
(** * display_driver.py: low-level SPI helpers *)
(* ================================================================== *)

Module Bus.

(** What a call does to the outside world. *)
Inductive event : Type :=
| LockAcquire
| LockRelease
| SetSpeed (hz : Z)
| GpioOutput (pin : Z) (high : bool)
| WriteBytes2 (chunk : list Z).

Definition trace := list event.

Definition LOW : bool := false.
Definition HIGH : bool := true.

(** The slices [data[i:i+4096]] for [i in range(0, len(data), 4096)]. *)
Definition chunks (data : list Z) : list (list Z) :=
  map (fun k => take 4096 (drop (k * 4096) data))
      (seq 0 ((length data + 4095) / 4096)%nat).

Definition _write_bytes (cs_pin dc_pin : Z) (dc_mode : bool)
           (data : list Z) (speed : Z) : trace :=
  [LockAcquire;
   SetSpeed speed;
   GpioOutput dc_pin (if dc_mode then HIGH else LOW);
   GpioOutput cs_pin LOW]
  ++ map WriteBytes2 (chunks data)
  ++ [GpioOutput cs_pin HIGH;
      LockRelease].

Definition _cmd (cs dc cmd speed : Z) : trace :=
  _write_bytes cs dc false [cmd] speed.

Definition _dat (cs dc : Z) (data : list Z) (speed : Z) : trace :=
  _write_bytes cs dc true data speed.

(** [data] is [None] or a list; [if data:] is false for both [None] and
    the empty list. *)
Definition _cmd_dat (cs dc cmd : Z) (data : option (list Z)) (speed : Z) : trace :=
  _cmd cs dc cmd speed
  ++ match data with
     | Some (b :: bs) => _dat cs dc (b :: bs) speed
     | _ => []
     end.

(** ** Observations on traces *)

Definition is_write (e : event) : bool :=
  match e with WriteBytes2 _ => true | _ => false end.

Definition is_cs (cs : Z) (level : bool) (e : event) : bool :=
  match e with
  | GpioOutput pin l => (pin =? cs) && Bool.eqb l level
  | _ => false
  end.

(** All bytes written, in order. *)
Definition bytes_written (t : trace) : list Z :=
  flat_map (fun e => match e with WriteBytes2 c => c | _ => [] end) t.

(** One chip-select bracket around the whole transfer: the line goes low
    once before the first byte, every byte is written while it is low, and
    it goes high once, after the last byte.  [selected] tracks the line,
    [closed] records that it has already been released once. *)
Fixpoint single_bracket_from (cs : Z) (selected closed : bool) (t : trace) : bool :=
  match t with
  | [] => negb selected && closed
  | e :: t' =>
      if is_cs cs LOW e then
        negb selected && negb closed && single_bracket_from cs true closed t'
      else if is_cs cs HIGH e then
        selected && single_bracket_from cs false true t'
      else if is_write e then
        selected && single_bracket_from cs selected closed t'
      else single_bracket_from cs selected closed t'
  end.

Definition single_bracket (cs : Z) (t : trace) : bool :=
  single_bracket_from cs false false t.

(** The lock is held from the first event to the last, with no release in
    between. *)
Definition lock_held_throughout (t : trace) : Prop :=
  exists body, t = LockAcquire :: body ++ [LockRelease]
            /\ Forall (fun e => e <> LockAcquire /\ e <> LockRelease) body.

End Bus.

Import Bus.

(* ================================================================== *)
(** * display_driver.py: the two display classes *)
(* ================================================================== *)

Module Display.

(** Pin numbers (BCM). *)
Definition ILI_CS : Z := 8.
Definition ILI_DC : Z := 25.
Definition ST_CS : Z := 5.
Definition ST_DC : Z := 23.

(** What a display class provides: its class attributes [W], [H], [SPD],
    the pins its [_c] helper drives, and its [_window] method. *)
Record panel : Type := {
  W : Z;
  H : Z;
  SPD : Z;
  CS : Z;
  DC : Z;
  _window : Z -> Z -> Z -> Z -> trace
}.

(** [c = ((r & 0xF8) << 8) | ((g & 0xFC) << 3) | (b >> 3)] *)
Definition rgb565 (r g b : Z) : Z :=
  Z.lor (Z.lor (Z.shiftl (Z.land r 0xF8) 8) (Z.shiftl (Z.land g 0xFC) 3))
        (Z.shiftr b 3).

(** The body of [for i in range(W * H)], over the remaining indices. *)
Fixpoint pack_pixels (raw : list Z) (idx : list nat) (buf : list Z)
  : result (list Z) :=
  match idx with
  | [] => Ok buf
  | i :: rest =>
      let* r := getitem raw (i * 3) in
      let* g := getitem raw (i * 3 + 1) in
      let* b := getitem raw (i * 3 + 2) in
      let c := rgb565 r g b in
      let* buf1 := bytearray_setitem buf (i * 2) (Z.shiftr c 8) in
      let* buf2 := bytearray_setitem buf1 (i * 2 + 1) (Z.land c 0xFF) in
      pack_pixels raw rest buf2
  end.

(** [image], from [raw = img.tobytes()] on.  The resize and the conversion
    to mode RGB above it are Pillow's: they leave [raw] with three bytes
    per pixel for [W * H] pixels.  The method has the same text in both
    classes, up to the pins of the final [_dat]. *)
Definition image (p : panel) (raw : list Z) : result trace :=
  let* buf := bytearray (W p * H p * 2) in
  let* buf := pack_pixels raw (seq 0 (Z.to_nat (W p * H p))) buf in
  Ok (_window p 0 0 (W p - 1) (H p - 1) ++ _dat (CS p) (DC p) buf (SPD p)).

Module ILI9341.
Definition W : Z := 320.
Definition H : Z := 240.
Definition SPD : Z := 40000000.
Definition _c (cmd : Z) (data : option (list Z)) : trace :=
  _cmd_dat ILI_CS ILI_DC cmd data SPD.
Definition _window (x0 y0 x1 y1 : Z) : trace :=
  _c 0x2A (Some [Z.shiftr x0 8; Z.land x0 0xFF; Z.shiftr x1 8; Z.land x1 0xFF])
  ++ _c 0x2B (Some [Z.shiftr y0 8; Z.land y0 0xFF; Z.shiftr y1 8; Z.land y1 0xFF])
  ++ _c 0x2C None.
Definition class : panel :=
  {| Display.W := W; Display.H := H; Display.SPD := SPD;
     CS := ILI_CS; DC := ILI_DC; Display._window := _window |}.
End ILI9341.

Module ST7735.
Definition W : Z := 160.
Definition H : Z := 128.
Definition SPD : Z := 15000000.
Definition _c (cmd : Z) (data : option (list Z)) : trace :=
  _cmd_dat ST_CS ST_DC cmd data SPD.
Definition _window (x0 y0 x1 y1 : Z) : trace :=
  _c 0x2A (Some [0x00; x0; 0x00; x1])
  ++ _c 0x2B (Some [0x00; y0; 0x00; y1])
  ++ _c 0x2C None.
Definition class : panel :=
  {| Display.W := W; Display.H := H; Display.SPD := SPD;
     CS := ST_CS; DC := ST_DC; Display._window := _window |}.
End ST7735.

(** The three colour fields of a packed RGB565 word (the panel's reading of
    it; the program itself never decodes). *)
Definition decode565 (c : Z) : Z * Z * Z :=
  (Z.shiftr c 11, Z.land (Z.shiftr c 5) 0x3F, Z.land c 0x1F).

Definition is_byte (v : Z) : bool := (0 <=? v) && (v <? 256).

End Display.

(* ================================================================== *)
(** * display_driver.py: XPT2046 touch *)
(* ================================================================== *)

Module Touch.

Definition TOUCH_X_CMD : Z := 0x90.
Definition TOUCH_Y_CMD : Z := 0xD0.

(** The module-level settings [read_touch] reads. *)
Record config : Type := {
  SCREEN_W : Z;
  SCREEN_H : Z;
  CAL_X_MIN : Z;
  CAL_X_MAX : Z;
  CAL_Y_MIN : Z;
  CAL_Y_MAX : Z;
  CAL_SWAP_XY : bool;
  CAL_FLIP_X : bool;
  CAL_FLIP_Y : bool;
  TOUCH_IRQ_ACTIVE_HIGH : bool
}.

(** The values [display_driver.py] assigns. *)
Definition configured : config :=
  {| SCREEN_W := 320; SCREEN_H := 240;
     CAL_X_MIN := 445; CAL_X_MAX := 3492;
     CAL_Y_MIN := 606; CAL_Y_MAX := 3615;
     CAL_SWAP_XY := false; CAL_FLIP_X := false; CAL_FLIP_Y := false;
     TOUCH_IRQ_ACTIVE_HIGH := false |}.

(** The three bytes [_spi.xfer2([cmd, 0x00, 0x00])] returns. *)
Definition reply : Type := (Z * Z * Z)%type.

(** The controller, as seen by the driver: the reply to the [k]-th
    transfer of a command within one [ch] call. *)
Definition device : Type := Z -> nat -> reply.

(** [((r[1] << 8) | r[2]) >> 3] *)
Definition sample_of (r : reply) : Z :=
  let '(_, r1, r2) := r in
  Z.shiftr (Z.lor (Z.shiftl r1 8) r2) 3.

(** [sum(l)] *)
Definition sum (l : list Z) : Z := fold_left Z.add l 0.

(** [vals.sort(); return sum(vals[2:6]) // 4].  [list.sort] on ints yields
    the ascending rearrangement; [merge_sort] computes the same list. *)
Definition median_mean (vals : list Z) : Z :=
  let vals := merge_sort Z.le vals in
  sum (take 4 (drop 2 vals)) / 4.

(** The inner [ch(cmd)]: eight acquisitions, then the filter. *)
Definition ch (dev : device) (cmd : Z) : Z :=
  median_mean (map (fun k => sample_of (dev cmd k)) (seq 0 8)).

Definition _raw_touch (dev : device) : Z * Z :=
  (ch dev TOUCH_X_CMD, ch dev TOUCH_Y_CMD).

(** [int((raw - lo) / max(1, hi - lo) * extent)] *)
Definition scale (raw lo hi extent : Z) : result Z :=
  let* q := truediv (raw - lo) (Z.max 1 (hi - lo)) in
  int_of_float (fmul_int q extent).

(** The calibration of [read_touch], from the raw pair on. *)
Definition calibrate (cfg : config) (raw : Z * Z) : result (Z * Z) :=
  let '(rx, ry) := raw in
  let '(rx, ry) := if CAL_SWAP_XY cfg then (ry, rx) else (rx, ry) in
  let* x := scale rx (CAL_X_MIN cfg) (CAL_X_MAX cfg) (SCREEN_W cfg) in
  let* y := scale ry (CAL_Y_MIN cfg) (CAL_Y_MAX cfg) (SCREEN_H cfg) in
  let x := if CAL_FLIP_X cfg then SCREEN_W cfg - 1 - x else x in
  let y := if CAL_FLIP_Y cfg then SCREEN_H cfg - 1 - y else y in
  Ok (Z.max 0 (Z.min (SCREEN_W cfg - 1) x),
      Z.max 0 (Z.min (SCREEN_H cfg - 1) y)).

(** [read_touch]; [irq] is the level read from the interrupt pin. *)
Definition read_touch (cfg : config) (irq : bool) (dev : device)
  : result (option (Z * Z)) :=
  let touched :=
    let* pt := calibrate cfg (_raw_touch dev) in
    Ok (Some pt) in
  if negb (TOUCH_IRQ_ACTIVE_HIGH cfg) then
    if irq then Ok None else touched
  else
    if negb irq then Ok None else touched.

End Touch.

(* ================================================================== *)
(** * ui.py: touch helpers *)
(* ================================================================== *)

Module Ui.

Definition ILI_W : Z := 320.
Definition ILI_H : Z := 240.
Definition BAR_H : Z := 24.
Definition BOT_H : Z := 18.

Definition SCREEN_DASHBOARD : string := "dashboard".
Definition SCREEN_APPS : string := "apps".
Definition SCREEN_BRIEF : string := "brief".
Definition SCREEN_EMAILS : string := "emails".
Definition SCREEN_SYSMON : string := "sysmon".
Definition SCREEN_FOCUS : string := "focus".

(** A hit region [(x0, y0, x1, y1, payload)]. *)
Definition region (A : Type) : Type := (Z * Z * Z * Z * A)%type.

(** [x0 <= tx <= x1 and y0 <= ty <= y1] *)
Definition inside {A} (tx ty : Z) (r : region A) : bool :=
  let '(x0, y0, x1, y1, _) := r in
  (x0 <=? tx) && (tx <=? x1) && ((y0 <=? ty) && (ty <=? y1)).

Definition payload {A} (r : region A) : A :=
  let '(_, _, _, _, p) := r in p.

Fixpoint hit_test {A} (tx ty : Z) (regions : list (region A)) : option A :=
  match regions with
  | [] => None
  | r :: rest => if inside tx ty r then Some (payload r) else hit_test tx ty rest
  end.

Definition DASHBOARD_PIE_REGION : list (region string) :=
  [(14, 82, 96, 162, SCREEN_APPS)].

Definition BACK_REGION : list (region string) :=
  [(0, ILI_H - BOT_H, 100, ILI_H, SCREEN_DASHBOARD)].

End Ui.

Import Ui.

(* ================================================================== *)
(** * ui-both-displays.py: state, touch routing, focus timer, main loop *)
(* ================================================================== *)

Module App.

(** The fields of [AppState] that routing and the focus timer read or
    write.  The data buckets filled by the polling thread only feed the
    renderers. *)
Record AppState : Type := {
  screen : string;
  apps_rects : list (region string);
  clean_done : bool;
  focus_session_mins : Z;
  focus_elapsed_mins : Z;
  focus_active : bool;
  focus_message : string
}.

(** [AppState.__init__] *)
Definition init : AppState :=
  {| screen := SCREEN_DASHBOARD;
     apps_rects := [];
     clean_done := false;
     focus_session_mins := 25;
     focus_elapsed_mins := 0;
     focus_active := false;
     focus_message := "" |}.

Definition set_screen (v : string) (st : AppState) : AppState :=
  {| screen := v;
     apps_rects := apps_rects st;
     clean_done := clean_done st;
     focus_session_mins := focus_session_mins st;
     focus_elapsed_mins := focus_elapsed_mins st;
     focus_active := focus_active st;
     focus_message := focus_message st |}.

Definition set_clean_done (v : bool) (st : AppState) : AppState :=
  {| screen := screen st;
     apps_rects := apps_rects st;
     clean_done := v;
     focus_session_mins := focus_session_mins st;
     focus_elapsed_mins := focus_elapsed_mins st;
     focus_active := focus_active st;
     focus_message := focus_message st |}.

Definition set_focus (active : bool) (elapsed : Z) (message : string)
           (st : AppState) : AppState :=
  {| screen := screen st;
     apps_rects := apps_rects st;
     clean_done := clean_done st;
     focus_session_mins := focus_session_mins st;
     focus_elapsed_mins := elapsed;
     focus_active := active;
     focus_message := message |}.

Definition DEBOUNCE_MS : Z := 300.

(** [handle_touch]: the returned flag and the state it leaves. *)
Definition handle_touch (x y : Z) (st : AppState) : bool * AppState :=
  let s := screen st in
  if String.eqb s SCREEN_DASHBOARD then
    match if_true (hit_test x y DASHBOARD_PIE_REGION) with
    | Some target => (true, set_screen target st)
    | None => (false, st)
    end
  else if String.eqb s SCREEN_APPS then
    match if_true (hit_test x y (apps_rects st)) with
    | Some target => (true, set_screen target st)
    | None =>
        match if_true (hit_test x y BACK_REGION) with
        | Some back => (true, set_screen back st)
        | None => (false, st)
        end
    end
  else
    match if_true (hit_test x y BACK_REGION) with
    | Some back =>
        let st1 :=
          if String.eqb s SCREEN_FOCUS && focus_active st
          then set_focus false 0 "Session ended." st
          else st in
        let st2 :=
          if String.eqb s SCREEN_SYSMON then set_clean_done false st1 else st1 in
        (true, set_screen back st2)
    | None =>
        if String.eqb s SCREEN_SYSMON && negb (clean_done st)
        then (true, set_clean_done true st)
        else (false, st)
    end.

(** [tick_focus]: [last] is the global [_focus_last_tick], [now] the value
    [_time.time()] returns when it is read. *)
Definition tick_focus (now : float) (last : float) (st : AppState)
  : float * AppState :=
  if negb (focus_active st) then (last, st)
  else if PrimFloat.leb 60%float (PrimFloat.sub now last) then
    let elapsed := focus_elapsed_mins st + 1 in
    if focus_session_mins st <=? elapsed
    then (now, set_focus false elapsed "Session complete!" st)
    else (now, set_focus true elapsed (focus_message st) st)
  else (last, st).

(** Repeated calls with the successive clock readings. *)
Fixpoint tick_focus_all (nows : list float) (last : float) (st : AppState)
  : float * AppState :=
  match nows with
  | [] => (last, st)
  | now :: rest =>
      let '(last', st') := tick_focus now last st in
      tick_focus_all rest last' st'
  end.

(** [now_ms = _time.time() * 1000] *)
Definition now_ms (t : float) : float := fmul_int t 1000.

(** [now_ms - last_touch_ms > DEBOUNCE_MS] *)
Definition debounce_passes (now_ms last_touch_ms : float) : bool :=
  PrimFloat.ltb (float_of_int DEBOUNCE_MS) (PrimFloat.sub now_ms last_touch_ms).

(** A call of [handle_touch] made by the loop: when, and where. *)
Definition routed : Type := (float * Z * Z)%type.

(** The touch part of one pass of the loop in [main]: [pt] is what
    [read_touch()] returned, [t] what [_time.time()] returns if it is read.
    Yields the new [last_touch_ms], the new state, and the call of
    [handle_touch] if one was made. *)
Definition touch_poll (pt : option (Z * Z)) (t : float)
           (last_touch_ms : float) (st : AppState)
  : float * AppState * option routed :=
  match pt with
  | Some (x, y) =>
      let now := now_ms t in
      if debounce_passes now last_touch_ms
      then (now, snd (handle_touch x y st), Some (now, x, y))
      else (last_touch_ms, st, None)
  | None => (last_touch_ms, st, None)
  end.

(** The touch parts of successive passes, one after the other; the calls
    of [handle_touch] are collected in order.  Between two of them [main]
    also runs [tick_focus] and builds the frame, which can change the
    state a later [handle_touch] sees: the timestamps and the calls made
    here are those of [main], the state component is that of [main] only
    where those two steps leave the state alone. *)
Fixpoint touch_loop (polls : list (option (Z * Z) * float))
         (last_touch_ms : float) (st : AppState)
  : float * AppState * list routed :=
  match polls with
  | [] => (last_touch_ms, st, [])
  | (pt, t) :: rest =>
      let '(last', st', r) := touch_poll pt t last_touch_ms st in
      let '(last'', st'', rs) := touch_loop rest last' st' in
      (last'', st'', match r with Some c => c :: rs | None => rs end)
  end.

(** [last_touch_ms = 0.0], before the loop. *)
Definition initial_last_touch_ms : float := 0%float.

End App.

(* ================================================================== *)
(** * Notions used in the statements *)
(* ================================================================== *)

Module Notions.

Import Touch.

(** Every reply of the controller is made of bytes. *)
Definition byte_replies (dev : device) : Prop :=
  forall cmd k, let '(r0, r1, r2) := dev cmd k in
                0 <= r0 < 256 /\ 0 <= r1 < 256 /\ 0 <= r2 < 256.

(** A controller that gives the same reply to every transfer. *)
Definition steady (r : reply) : device := fun _ _ => r.

(** A profile with its three orientation flags replaced. *)
Definition with_flags (swap flip_x flip_y : bool) (cfg : config) : config :=
  {| SCREEN_W := SCREEN_W cfg; SCREEN_H := SCREEN_H cfg;
     CAL_X_MIN := CAL_X_MIN cfg; CAL_X_MAX := CAL_X_MAX cfg;
     CAL_Y_MIN := CAL_Y_MIN cfg; CAL_Y_MAX := CAL_Y_MAX cfg;
     CAL_SWAP_XY := swap;
     CAL_FLIP_X := flip_x; CAL_FLIP_Y := flip_y;
     TOUCH_IRQ_ACTIVE_HIGH := TOUCH_IRQ_ACTIVE_HIGH cfg |}.

(** The raw pair after the optional swap. *)
Definition swapped (cfg : config) (raw : Z * Z) : Z * Z :=
  if CAL_SWAP_XY cfg then (snd raw, fst raw) else raw.

(** A calibration range of width zero on some axis. *)
Definition degenerate (cfg : config) : Prop :=
  CAL_X_MAX cfg = CAL_X_MIN cfg \/ CAL_Y_MAX cfg = CAL_Y_MIN cfg.

(** The configured profile with the X range collapsed to a point. *)
Definition collapsed_x : config :=
  {| SCREEN_W := 320; SCREEN_H := 240;
     CAL_X_MIN := 445; CAL_X_MAX := 445;
     CAL_Y_MIN := 606; CAL_Y_MAX := 3615;
     CAL_SWAP_XY := false; CAL_FLIP_X := false; CAL_FLIP_Y := false;
     TOUCH_IRQ_ACTIVE_HIGH := false |}.

(** [scale] returns the exact quotient [(raw - lo) * extent / (hi - lo)],
    truncated toward zero. *)
Definition scale_exact (lo hi extent raw : Z) : bool :=
  match scale raw lo hi extent with
  | Ok v => v =? Z.quot ((raw - lo) * extent) (hi - lo)
  | Raise _ => false
  end.

Import App.

(** Each call of [handle_touch] in the list came more than [DEBOUNCE_MS]
    after the one before it, the first one after [prev]. *)
Fixpoint spaced (prev : float) (calls : list routed) : Prop :=
  match calls with
  | [] => True
  | (t, _, _) :: rest => debounce_passes t prev = true /\ spaced t rest
  end.

(** [t'] is no more than [DEBOUNCE_MS] after [t] (both in ms). *)
Definition within_window (t' t : float) : Prop :=
  debounce_passes t' t = false.

(** The reading under which every detected touch, routed or not, would
    hold back the touches of the next [DEBOUNCE_MS]: no call of
    [handle_touch] is made for a touch that comes within the window of
    any earlier touch [read_touch] reported. *)
Definition every_detection_holds_back : Prop :=
  forall polls last st i j xi yi ti xj yj tj,
    (i < j)%nat ->
    polls !! i = Some (Some (xi, yi), ti) ->
    polls !! j = Some (Some (xj, yj), tj) ->
    within_window (now_ms tj) (now_ms ti) ->
    (now_ms tj, xj, yj) ∉ snd (touch_loop polls last st).

(** While a session runs its elapsed minutes stay below its length. *)
Definition session_in_progress (st : AppState) : Prop :=
  focus_active st = true -> focus_elapsed_mins st < focus_session_mins st.

(** What can happen to the state between two frames. *)
Inductive action : Type :=
| Tick (now : float)
| Touch (x y : Z).

Definition act (a : action) (s : float * AppState) : float * AppState :=
  match a with
  | Tick now => tick_focus now (fst s) (snd s)
  | Touch x y => (fst s, snd (handle_touch x y (snd s)))
  end.

Definition act_all (acts : list action) (s : float * AppState) : float * AppState :=
  fold_left (fun s a => act a s) acts s.

(** Every reading in the list comes at least 60 s after the previous
    one, the first one after [last]. *)
Fixpoint a_minute_apart (last : float) (nows : list float) : Prop :=
  match nows with
  | [] => True
  | now :: rest =>
      PrimFloat.leb 60%float (PrimFloat.sub now last) = true
      /\ a_minute_apart now rest
  end.

End Notions.

(* ================================================================== *)
(** * display_driver.py: the touch controller on the bus *)
(* ================================================================== *)

Module TouchIO.

Import Touch.

Definition T_CS : Z := 7.
Definition T_IRQ : Z := 17.

(** What [read_touch] does to the outside world: the bus events of the
    display helpers, reading a pin, and a full-duplex transfer with the
    bytes sent and the reply received. *)
Inductive io_event : Type :=
| OnBus (e : event)
| GpioInput (pin : Z) (level : bool)
| Xfer2 (tx : list Z) (rx : reply).

(** One pass of [for _ in range(8)] in [ch]. *)
Definition acquire (dev : device) (cmd : Z) (k : nat) : list io_event :=
  [OnBus (GpioOutput T_CS LOW);
   Xfer2 [cmd; 0x00; 0x00] (dev cmd k);
   OnBus (GpioOutput T_CS HIGH)].

(** The inner [ch(cmd)] with its events: the lock is taken, the speed set
    to 1 MHz, eight acquisitions made, the lock released; sorting and
    averaging follow. *)
Definition ch_io (dev : device) (cmd : Z) : list io_event * Z :=
  ([OnBus LockAcquire; OnBus (SetSpeed 1000000)]
   ++ flat_map (acquire dev cmd) (seq 0 8)
   ++ [OnBus LockRelease],
   median_mean (map (fun k => sample_of (dev cmd k)) (seq 0 8))).

Definition _raw_touch_io (dev : device) : list io_event * (Z * Z) :=
  let '(tx, x) := ch_io dev TOUCH_X_CMD in
  let '(ty, y) := ch_io dev TOUCH_Y_CMD in
  (tx ++ ty, (x, y)).

(** [read_touch] with its events; [irq] is what [GPIO.input(T_IRQ)]
    returns. *)
Definition read_touch_io (cfg : config) (irq : bool) (dev : device)
  : list io_event * result (option (Z * Z)) :=
  let touched :=
    let '(t, raw) := _raw_touch_io dev in
    (GpioInput T_IRQ irq :: t,
     let* pt := calibrate cfg raw in Ok (Some pt)) in
  if negb (TOUCH_IRQ_ACTIVE_HIGH cfg) then
    if irq then ([GpioInput T_IRQ irq], Ok None) else touched
  else
    if negb irq then ([GpioInput T_IRQ irq], Ok None) else touched.

(** The transfers of a run, in order: what was sent each time. *)
Definition transfers (t : list io_event) : list (list Z) :=
  flat_map (fun e => match e with Xfer2 tx _ => [tx] | _ => [] end) t.

(** Whether a run drives the bus at all (anything but reading a pin). *)
Definition drives_bus (t : list io_event) : bool :=
  existsb (fun e => match e with GpioInput _ _ => false | _ => true end) t.

(** Discipline of the touch transfers.  Everything happens under the
    lock; the speed is set with the controller deselected; only the touch
    chip-select is driven; every transfer sends three bytes with that line
    low, in a bracket of its own, at 1 MHz, the speed having been set since
    the lock was taken; and the lock is released only after exactly eight
    transfers.  [speed] is the speed set since the lock was taken, [used]
    records that the current bracket has carried its transfer, [n] counts
    the transfers made since the lock was taken. *)
Fixpoint touch_disciplined_from (locked : bool) (speed : option Z)
         (selected used : bool) (n : nat) (t : list io_event) : bool :=
  match t with
  | [] => negb locked && negb selected
  | GpioInput _ _ :: t' =>
      touch_disciplined_from locked speed selected used n t'
  | OnBus LockAcquire :: t' =>
      negb locked && touch_disciplined_from true None selected used 0 t'
  | OnBus LockRelease :: t' =>
      locked && negb selected && (n =? 8)%nat
      && touch_disciplined_from false None selected used 0 t'
  | OnBus (SetSpeed hz) :: t' =>
      locked && negb selected
      && touch_disciplined_from locked (Some hz) selected used n t'
  | OnBus (GpioOutput pin level) :: t' =>
      locked && (pin =? T_CS)
      && (if level then selected && used else negb selected)
      && touch_disciplined_from locked speed (negb level) false n t'
  | OnBus (WriteBytes2 _) :: t' => false
  | Xfer2 tx _ :: t' =>
      locked && selected && negb used
      && match speed with Some hz => hz =? 1000000 | None => false end
      && (length tx =? 3)%nat
      && touch_disciplined_from locked speed selected true (S n) t'
  end.

Definition touch_disciplined (t : list io_event) : bool :=
  touch_disciplined_from false None false false 0 t.

End TouchIO.

(* ================================================================== *)
(** * ui.py: helpers and the geometry of the apps grid *)
(* ================================================================== *)

Module UiLayout.

(** [_safe(d, *keys, default=...)] on a dict with string keys. *)
Fixpoint _safe {V} (d : gmap string V) (keys : list string) (default : V) : V :=
  match keys with
  | [] => default
  | k :: rest =>
      match d !! k with
      | Some v => v
      | None => _safe d rest default
      end
  end.

(** An entry of [APPS_TILES]: its keys ["id"], ["label"], ["color"]. *)
Record tile : Type := {
  tile_id : string;
  tile_label : string;
  tile_color : Z * Z * Z
}.

Definition ORANGE : Z * Z * Z := (255, 130, 40).
Definition BLUE : Z * Z * Z := (70, 140, 255).
Definition CYAN : Z * Z * Z := (0, 210, 240).
Definition GREEN : Z * Z * Z := (0, 210, 120).

(** The two-line labels, with the line feed of the source. *)
Definition two_lines (a b : string) : string :=
  a +:+ String (Ascii.ascii_of_nat 10) b.

Definition APPS_TILES : list tile :=
  [ {| tile_id := SCREEN_EMAILS; tile_label := two_lines "summarize" "mails"; tile_color := ORANGE |};
    {| tile_id := SCREEN_FOCUS; tile_label := two_lines "focus" "mode"; tile_color := BLUE |};
    {| tile_id := SCREEN_BRIEF; tile_label := two_lines "brief" "my day"; tile_color := CYAN |};
    {| tile_id := SCREEN_SYSMON; tile_label := two_lines "system" "care"; tile_color := GREEN |} ].

Definition PAD : Z := 6.
Definition tile_w : Z := (ILI_W - PAD * 3) / 2.
Definition tile_h : Z := (ILI_H - BAR_H - PAD * 3) / 2.

(** The rectangle [render_apps] records for the [i]-th tile. *)
Definition tile_rect (i : nat) (t : tile) : region string :=
  let col := Z.of_nat i mod 2 in
  let row := Z.of_nat i / 2 in
  let tx := PAD + col * (tile_w + PAD) in
  let ty := BAR_H + PAD + row * (tile_h + PAD) in
  let tx2 := tx + tile_w in
  let ty2 := ty + tile_h in
  (tx, ty, tx2, ty2, tile_id t).

(** The [hit_rects] that [render_apps] returns beside the image: one
    rectangle per tile, in the order of [APPS_TILES].  (The drawing
    itself is Pillow's.) *)
Definition render_apps_rects : list (region string) :=
  imap tile_rect APPS_TILES.

End UiLayout.

(* ================================================================== *)
(** * ui-both-displays.py: frames and pacing *)
(* ================================================================== *)

Module Loop.

Import App UiLayout.

(** Which renderer [build_ili_frame] calls, with the fields of the state
    it hands over (those of [AppState] as modelled here). *)
Inductive frame_request : Type :=
| RenderDashboard
| RenderApps
| RenderBrief
| RenderEmails
| RenderSysmon (clean_done : bool)
| RenderFocus (session_mins elapsed_mins : Z) (active : bool) (message : string)
| RenderFallback.

Definition set_apps_rects (v : list (region string)) (st : AppState) : AppState :=
  {| screen := screen st;
     apps_rects := v;
     clean_done := clean_done st;
     focus_session_mins := focus_session_mins st;
     focus_elapsed_mins := focus_elapsed_mins st;
     focus_active := focus_active st;
     focus_message := focus_message st |}.

(** [build_ili_frame]: the renderer chosen for the current screen and the
    state it leaves (the apps screen stores the rectangles [render_apps]
    returns).  An unknown screen falls through to the last
    [render_dashboard]. *)
Definition build_ili_frame (st : AppState) : frame_request * AppState :=
  let s := screen st in
  if String.eqb s SCREEN_DASHBOARD then (RenderDashboard, st)
  else if String.eqb s SCREEN_APPS then
    (RenderApps, set_apps_rects render_apps_rects st)
  else if String.eqb s SCREEN_BRIEF then (RenderBrief, st)
  else if String.eqb s SCREEN_EMAILS then (RenderEmails, st)
  else if String.eqb s SCREEN_SYSMON then (RenderSysmon (clean_done st), st)
  else if String.eqb s SCREEN_FOCUS then
    (RenderFocus (focus_session_mins st) (focus_elapsed_mins st)
                 (focus_active st) (focus_message st), st)
  else (RenderFallback, st).

(** What one pass of the loop reads from outside: the clock in
    [tick_focus], the result of [read_touch()], and the clock for
    [now_ms]. *)
Record inputs : Type := {
  focus_clock : float;
  touch : option (Z * Z);
  touch_clock : float
}.

(** The state the loop carries: [_focus_last_tick], [last_touch_ms] and
    the application state. *)
Record loop_state : Type := {
  _focus_last_tick : float;
  last_touch_ms : float;
  state : AppState
}.

(** Before the loop: [_focus_last_tick = 0.0], [last_touch_ms = 0.0],
    [state = AppState()]. *)
Definition loop_init : loop_state :=
  {| _focus_last_tick := 0%float;
     last_touch_ms := initial_last_touch_ms;
     state := init |}.

(** One pass of [while True], up to the frame it asks for: focus tick,
    touch, frame.  (The time strings of [tick_time] are not part of the
    modelled state.) *)
Definition pass (i : inputs) (s : loop_state) : frame_request * loop_state :=
  let '(tick, st1) := tick_focus (focus_clock i) (_focus_last_tick s) (state s) in
  let '(last, st2, _) := touch_poll (touch i) (touch_clock i) (last_touch_ms s) st1 in
  let '(req, st3) := build_ili_frame st2 in
  (req, {| _focus_last_tick := tick; last_touch_ms := last; state := st3 |}).

Definition run (ins : list inputs) (s : loop_state) : loop_state :=
  fold_left (fun s i => snd (pass i s)) ins s.

(** The call of [handle_touch] a pass makes, if it makes one. *)
Definition pass_routed (i : inputs) (s : loop_state) : option routed :=
  let '(_, st1) := tick_focus (focus_clock i) (_focus_last_tick s) (state s) in
  snd (touch_poll (touch i) (touch_clock i) (last_touch_ms s) st1).

(** Successive passes, with the calls of [handle_touch] they make, in
    order. *)
Fixpoint run_log (ins : list inputs) (s : loop_state)
  : list routed * loop_state :=
  match ins with
  | [] => ([], s)
  | i :: rest =>
      let '(rs, s') := run_log rest (snd (pass i s)) in
      (match pass_routed i s with Some c => c :: rs | None => rs end, s')
  end.

(** A pass that finds a touch at [(x, y)], and one that finds none. *)
Definition touched (focus_t : float) (x y : Z) (t : float) : inputs :=
  {| focus_clock := focus_t; touch := Some (x, y); touch_clock := t |}.

Definition untouched (focus_t t : float) : inputs :=
  {| focus_clock := focus_t; touch := None; touch_clock := t |}.

Definition ILI_REFRESH_HZ : Z := 10.

(** [frame_interval = 1.0 / ILI_REFRESH_HZ] *)
Definition frame_interval : float :=
  PrimFloat.div 1%float (float_of_int ILI_REFRESH_HZ).

(** [max(a, b)] on two floats: the first unless the second is greater. *)
Definition max_float (a b : float) : float :=
  if PrimFloat.ltb a b then b else a.

(** Truth value of a float: anything but zero. *)
Definition truthy_float (f : float) : bool := negb (PrimFloat.eqb f 0%float).

(** The frame rate cap at the end of a pass: [loop_start] and [now] are
    the two clock readings; the result is the argument of [_time.sleep]
    when it is called. *)
Definition frame_sleep (loop_start now : float) : option float :=
  let elapsed := PrimFloat.sub now loop_start in
  let sleep_t := max_float 0%float (PrimFloat.sub frame_interval elapsed) in
  if truthy_float sleep_t then Some sleep_t else None.

End Loop.

(* ================================================================== *)
(** * Further notions used in the statements *)
(* ================================================================== *)

Module Discipline.

(** Bus discipline of a display on pins [cs] and [dc]: every event
    happens under the lock; the speed and the data/command line change
    only while the display is deselected; bytes are written only while
    it is selected; no other pin is driven; at the end the display is
    deselected and the lock free. *)
Fixpoint disciplined_from (cs dc : Z) (locked selected : bool) (t : trace) : bool :=
  match t with
  | [] => negb locked && negb selected
  | LockAcquire :: t' => negb locked && disciplined_from cs dc true selected t'
  | LockRelease :: t' =>
      locked && negb selected && disciplined_from cs dc false selected t'
  | SetSpeed _ :: t' =>
      locked && negb selected && disciplined_from cs dc locked selected t'
  | GpioOutput pin level :: t' =>
      if pin =? cs then
        locked && (if level then selected else negb selected)
        && disciplined_from cs dc locked (negb level) t'
      else if pin =? dc then
        locked && negb selected && disciplined_from cs dc locked selected t'
      else false
  | WriteBytes2 _ :: t' =>
      locked && selected && disciplined_from cs dc locked selected t'
  end.

Definition disciplined (cs dc : Z) (t : trace) : bool :=
  disciplined_from cs dc false false t.

(** A display object of one of the two classes, of whatever size: it
    drives the pins of its class and sets the window the way its class
    does. *)
Definition of_either_class (p : Display.panel) : Prop :=
  (Display.CS p = Display.ILI_CS /\ Display.DC p = Display.ILI_DC
   /\ Display._window p = Display.ILI9341._window)
  \/ (Display.CS p = Display.ST_CS /\ Display.DC p = Display.ST_DC
      /\ Display._window p = Display.ST7735._window).

(** The screens the application knows. *)
Definition known_screen (s : string) : Prop :=
  s = SCREEN_DASHBOARD \/ s = SCREEN_APPS \/ s = SCREEN_BRIEF
  \/ s = SCREEN_EMAILS \/ s = SCREEN_SYSMON \/ s = SCREEN_FOCUS.

(** [v] clamped into [0, hi]. *)
Definition clamp (hi v : Z) : Z := Z.max 0 (Z.min hi v).

(** The focus fields as [AppState.__init__] sets them. *)
Definition focus_untouched (st : App.AppState) : Prop :=
  App.focus_active st = false
  /\ App.focus_elapsed_mins st = 0
  /\ App.focus_session_mins st = 25
  /\ App.focus_message st = "".

(** The stored rectangles are those of the apps grid whenever the apps
    screen is shown, and never anything else than those or none. *)
Definition rects_in_step (st : App.AppState) : Prop :=
  (App.screen st = SCREEN_APPS -> App.apps_rects st = UiLayout.render_apps_rects)
  /\ (App.apps_rects st = [] \/ App.apps_rects st = UiLayout.render_apps_rects).

(** The slices handed to [writebytes2] in a run, in order. *)
Definition writes (t : trace) : list (list Z) :=
  flat_map (fun e => match e with WriteBytes2 c => [c] | _ => [] end) t.



End Discipline.

(* ================================================================== *)
(** * Properties *)
(* ================================================================== *)

Import Display Touch App Notions.

(** ** Checking a decidable fact on every integer below a bound *)

Lemma forallb_below (n : Z) (P : Z -> bool) :
  forallb P (map Z.of_nat (seq 0 (Z.to_nat n))) = true ->
  forall v, 0 <= v < n -> P v = true.
Proof.
  intros Hall v Hv.
  rewrite forallb_forall in Hall.
  apply Hall, in_map_iff.
  exists (Z.to_nat v). split; [lia|].
  apply in_seq. lia.
Qed.

Lemma is_byte_range v : is_byte v = true <-> 0 <= v < 256.
Proof. unfold is_byte. rewrite andb_true_iff, Z.leb_le, Z.ltb_lt. tauto. Qed.

(** Linear arithmetic with division and modulo by constants. *)
Ltac zdiv := Z.div_mod_to_equations; lia.

(** ** Bit-level facts about [rgb565] *)

Lemma lor_disjoint (x y k : Z) :
  0 <= k -> 0 <= y < 2 ^ k -> Z.lor (x * 2 ^ k) y = x * 2 ^ k + y.
Proof.
  intros Hk Hy.
  assert (Hland : Z.land (x * 2 ^ k) y = 0).
  { apply Z.bits_inj'. intros n Hn.
    rewrite Z.land_spec, Z.bits_0.
    destruct (Z.lt_ge_cases n k) as [Hlt|Hge].
    - rewrite Z.mul_pow2_bits_low by lia. reflexivity.
    - rewrite <- (Z.mod_small y (2 ^ k)) by lia.
      rewrite Z.mod_pow2_bits_high by lia. apply andb_false_r. }
  pose proof (Z.add_lor_land (x * 2 ^ k) y) as Hadd. lia.
Qed.

Lemma mask_F8 r : 0 <= r < 256 -> Z.land r 0xF8 = 8 * (r / 8).
Proof.
  intros Hr. apply Z.eqb_eq.
  apply (forallb_below 256 (fun r => Z.land r 0xF8 =? 8 * (r / 8))); [|lia].
  vm_compute. reflexivity.
Qed.

Lemma mask_FC g : 0 <= g < 256 -> Z.land g 0xFC = 4 * (g / 4).
Proof.
  intros Hg. apply Z.eqb_eq.
  apply (forallb_below 256 (fun g => Z.land g 0xFC =? 4 * (g / 4))); [|lia].
  vm_compute. reflexivity.
Qed.

(** The packed word, as a sum of its three fields. *)
Lemma rgb565_fields r g b :
  0 <= r < 256 -> 0 <= g < 256 -> 0 <= b < 256 ->
  rgb565 r g b = (r / 8) * 2048 + (g / 4) * 32 + b / 8.
Proof.
  intros Hr Hg Hb. unfold rgb565.
  rewrite mask_F8, mask_FC by assumption.
  rewrite !Z.shiftl_mul_pow2, Z.shiftr_div_pow2 by lia.
  change (2 ^ 8) with 256. change (2 ^ 3) with 8.
  assert (Hrh : 0 <= r / 8 < 32) by zdiv.
  assert (Hgh : 0 <= g / 4 < 64) by zdiv.
  assert (Hbh : 0 <= b / 8 < 32) by zdiv.
  generalize dependent (r / 8). generalize dependent (g / 4).
  generalize dependent (b / 8). intros bh Hbh gh Hgh rh Hrh.
  replace (8 * rh * 256) with (rh * 2 ^ 11) by lia.
  rewrite (lor_disjoint rh (4 * gh * 8) 11) by lia.
  replace (rh * 2 ^ 11 + 4 * gh * 8) with ((rh * 64 + gh) * 2 ^ 5) by lia.
  rewrite lor_disjoint by lia.
  lia.
Qed.

Lemma rgb565_range r g b :
  0 <= r < 256 -> 0 <= g < 256 -> 0 <= b < 256 ->
  0 <= rgb565 r g b < 65536.
Proof.
  intros Hr Hg Hb. rewrite rgb565_fields by assumption. zdiv.
Qed.

Lemma rgb565_decode r g b :
  0 <= r < 256 -> 0 <= g < 256 -> 0 <= b < 256 ->
  decode565 (rgb565 r g b) = (Z.shiftr r 3, Z.shiftr g 2, Z.shiftr b 3).
Proof.
  intros Hr Hg Hb. unfold decode565.
  rewrite rgb565_fields by assumption.
  change 0x3F with (Z.ones 6). change 0x1F with (Z.ones 5).
  rewrite !Z.land_ones, !Z.shiftr_div_pow2 by lia.
  change (2 ^ 11) with 2048. change (2 ^ 5) with 32. change (2 ^ 6) with 64.
  change (2 ^ 3) with 8. change (2 ^ 2) with 4.
  assert (Hrh : 0 <= r / 8 < 32) by zdiv.
  assert (Hgh : 0 <= g / 4 < 64) by zdiv.
  assert (Hbh : 0 <= b / 8 < 32) by zdiv.
  generalize dependent (r / 8). generalize dependent (g / 4).
  generalize dependent (b / 8). intros bh Hbh gh Hgh rh Hrh.
  f_equal; [f_equal|]; zdiv.
Qed.

Lemma rgb565_bytes r g b :
  0 <= r < 256 -> 0 <= g < 256 -> 0 <= b < 256 ->
  let c := rgb565 r g b in
  0 <= Z.shiftr c 8 < 256 /\ 0 <= Z.land c 0xFF < 256
  /\ Z.shiftr c 8 * 256 + Z.land c 0xFF = c.
Proof.
  intros Hr Hg Hb c.
  pose proof (rgb565_range r g b Hr Hg Hb) as Hc. fold c in Hc.
  change 0xFF with (Z.ones 8).
  rewrite Z.land_ones, Z.shiftr_div_pow2 by lia.
  change (2 ^ 8) with 256. zdiv.
Qed.

(** ** The packing loop *)

Lemma getitem_Some {A} (l : list A) i a : l !! i = Some a -> getitem l i = Ok a.
Proof. unfold getitem. intros ->. reflexivity. Qed.

Lemma bytearray_setitem_ok buf i v :
  (i < length buf)%nat -> 0 <= v < 256 ->
  bytearray_setitem buf i v = Ok (<[i:=v]> buf).
Proof.
  intros Hi Hv. unfold bytearray_setitem.
  destruct (decide (i < length buf)%nat); [|contradiction].
  destruct (decide (0 <= v < 256)); [reflexivity|contradiction].
Qed.

(** Running the loop over pixels [k .. k+n-1] succeeds, leaves the bytes
    of earlier pixels alone and writes two bytes for each of its own. *)
Lemma pack_pixels_spec raw n :
  forall k buf,
    (length raw = 3 * (k + n))%nat ->
    Forall (fun v => 0 <= v < 256) raw ->
    (length buf = 2 * (k + n))%nat ->
    exists buf',
      pack_pixels raw (seq k n) buf = Ok buf'
      /\ length buf' = length buf
      /\ (forall j, (j < 2 * k)%nat -> buf' !! j = buf !! j)
      /\ (forall i r g b, (k <= i < k + n)%nat ->
            raw !! (i * 3)%nat = Some r ->
            raw !! (i * 3 + 1)%nat = Some g ->
            raw !! (i * 3 + 2)%nat = Some b ->
            buf' !! (i * 2)%nat = Some (Z.shiftr (rgb565 r g b) 8)
            /\ buf' !! (i * 2 + 1)%nat = Some (Z.land (rgb565 r g b) 0xFF)).
Proof.
  induction n as [|n IH]; intros k buf Hraw Hbytes Hbuf.
  - exists buf. cbn [seq pack_pixels].
    split; [reflexivity|]. split; [reflexivity|]. split; [reflexivity|].
    intros; lia.
  - cbn [seq pack_pixels].
    destruct (lookup_lt_is_Some_2 raw (k * 3)) as [r Hr]; [lia|].
    destruct (lookup_lt_is_Some_2 raw (k * 3 + 1)) as [g Hg]; [lia|].
    destruct (lookup_lt_is_Some_2 raw (k * 3 + 2)) as [b Hb]; [lia|].
    rewrite (getitem_Some _ _ _ Hr), (getitem_Some _ _ _ Hg), (getitem_Some _ _ _ Hb).
    cbn [bind].
    assert (Br : 0 <= r < 256) by (eapply (proj1 (Forall_lookup _ _) Hbytes); eauto).
    assert (Bg : 0 <= g < 256) by (eapply (proj1 (Forall_lookup _ _) Hbytes); eauto).
    assert (Bb : 0 <= b < 256) by (eapply (proj1 (Forall_lookup _ _) Hbytes); eauto).
    destruct (rgb565_bytes r g b Br Bg Bb) as (Hhi & Hlo & _).
    rewrite bytearray_setitem_ok by (assumption || lia). cbn [bind].
    rewrite bytearray_setitem_ok by (rewrite ?length_insert; assumption || lia).
    cbn [bind].
    set (buf2 := <[(k * 2 + 1)%nat := _]> (<[(k * 2)%nat := _]> buf)).
    assert (Hlen2 : length buf2 = length buf)
      by (unfold buf2; rewrite !length_insert; reflexivity).
    destruct (IH (S k) buf2) as (buf' & Hrun & Hlen & Hold & Hnew);
      [lia | assumption | lia |].
    exists buf'. split; [exact Hrun|]. split; [congruence|]. split.
    + intros j Hj. rewrite Hold by lia. unfold buf2.
      rewrite !list_lookup_insert_ne by lia. reflexivity.
    + intros i r' g' b' Hi Hr' Hg' Hb'.
      destruct (decide (i = k)) as [->|Hne].
      * assert (r' = r) by congruence. assert (g' = g) by congruence.
        assert (b' = b) by congruence. subst r' g' b'.
        rewrite !Hold by lia. unfold buf2. split.
        -- rewrite list_lookup_insert_ne by lia.
           apply list_lookup_insert_eq. lia.
        -- apply list_lookup_insert_eq. rewrite length_insert. lia.
      * apply Hnew; auto. lia.
Qed.

(** ** Chunking keeps the bytes *)

Lemma concat_slices {A} (c : nat) (m : nat) :
  forall data : list A,
    (length data <= m * c)%nat ->
    concat (map (fun k => take c (drop (k * c) data)) (seq 0 m)) = data.
Proof.
  induction m as [|m IH]; intros data Hlen.
  - cbn. destruct data; [reflexivity | cbn in Hlen; lia].
  - cbn [seq map concat]. rewrite <- seq_shift, map_map.
    transitivity (take c data ++ drop c data); [|apply take_drop].
    f_equal.
    rewrite <- (IH (drop c data)) by (rewrite length_drop; lia).
    f_equal. apply map_ext. intros k.
    rewrite drop_drop. do 2 f_equal; lia.
Qed.

Lemma concat_chunks data : concat (chunks data) = data.
Proof.
  unfold chunks. apply concat_slices.
  pose proof (Nat.div_mod_eq (length data + 4095) 4096).
  pose proof (Nat.mod_upper_bound (length data + 4095) 4096).
  lia.
Qed.

Lemma bytes_written_app t1 t2 :
  bytes_written (t1 ++ t2) = bytes_written t1 ++ bytes_written t2.
Proof. unfold bytes_written. apply flat_map_app. Qed.

Lemma bytes_written_writes cs : bytes_written (map WriteBytes2 cs) = concat cs.
Proof.
  induction cs as [|c cs IH]; [reflexivity|].
  cbn. f_equal. exact IH.
Qed.

Lemma bytes_written_write_bytes cs dc mode data speed :
  bytes_written (_write_bytes cs dc mode data speed) = data.
Proof.
  unfold _write_bytes.
  rewrite !bytes_written_app, bytes_written_writes, concat_chunks.
  cbn. apply app_nil_r.
Qed.

(** ** C1: frames are packed as RGB565, high byte first *)

(** C1.  For either display class (any [panel] of non-negative size) and
    any frame of [W * H] RGB pixels, [image] succeeds and streams, after the window
    commands, one data transfer whose bytes are the packed buffer; the
    buffer holds, for pixel [i], the high byte of its 16-bit word at
    [2i] and the low byte at [2i + 1]; the word keeps the top 5 bits of
    red, the top 6 of green and the top 5 of blue, so decoding it gives
    exactly those bits back; pure red, green and blue pack to [0xF800],
    [0x07E0] and [0x001F]. *)
Theorem image_packs_rgb565 (p : panel) (raw : list Z) :
  0 <= W p * H p ->
  length raw = Z.to_nat (W p * H p * 3) ->
  forallb is_byte raw = true ->
  exists buf,
    image p raw
      = Ok (_window p 0 0 (W p - 1) (H p - 1) ++ _dat (CS p) (DC p) buf (SPD p))
    /\ bytes_written (_dat (CS p) (DC p) buf (SPD p)) = buf
    /\ length buf = Z.to_nat (W p * H p * 2)
    /\ (forall (i : nat) r g b,
          raw !! (i * 3)%nat = Some r ->
          raw !! (i * 3 + 1)%nat = Some g ->
          raw !! (i * 3 + 2)%nat = Some b ->
          let c := rgb565 r g b in
          buf !! (i * 2)%nat = Some (Z.shiftr c 8)
          /\ buf !! (i * 2 + 1)%nat = Some (Z.land c 0xFF)
          /\ Z.shiftr c 8 * 256 + Z.land c 0xFF = c
          /\ decode565 c = (Z.shiftr r 3, Z.shiftr g 2, Z.shiftr b 3))
    /\ rgb565 255 0 0 = 0xF800
    /\ rgb565 0 255 0 = 0x07E0
    /\ rgb565 0 0 255 = 0x001F.
Proof.
  intros Hsize Hlen Hbytes.
  assert (Hall : Forall (fun v => 0 <= v < 256) raw).
  { apply Forall_forall. intros v Hv. apply is_byte_range.
    rewrite forallb_forall in Hbytes. apply Hbytes, list_elem_of_In, Hv. }
  unfold image, bytearray.
  destruct (Z.ltb_spec (W p * H p * 2) 0) as [Hneg|_]; [lia|]. cbn [bind].
  set (n := Z.to_nat (W p * H p)).
  assert (Hn3 : Z.to_nat (W p * H p * 3) = (3 * n)%nat) by (unfold n; lia).
  assert (Hn2 : Z.to_nat (W p * H p * 2) = (2 * n)%nat) by (unfold n; lia).
  rewrite Hn2. rewrite Hn3 in Hlen.
  destruct (pack_pixels_spec raw n 0%nat (replicate (2 * n) 0))
    as (buf & Hrun & Hbuflen & _ & Hpix);
    [lia | assumption | rewrite length_replicate; lia |].
  exists buf. rewrite Hrun. cbn [bind].
  split; [reflexivity|].
  split; [apply bytes_written_write_bytes|].
  split; [rewrite Hbuflen, length_replicate; reflexivity|].
  split; [|repeat split; reflexivity].
  intros i r g b Hr Hg Hb.
  assert (Hi : (0 <= i < 0 + n)%nat).
  { apply lookup_lt_Some in Hb. lia. }
  assert (Br : 0 <= r < 256) by (eapply (proj1 (Forall_lookup _ _) Hall); eauto).
  assert (Bg : 0 <= g < 256) by (eapply (proj1 (Forall_lookup _ _) Hall); eauto).
  assert (Bb : 0 <= b < 256) by (eapply (proj1 (Forall_lookup _ _) Hall); eauto).
  destruct (Hpix i r g b Hi Hr Hg Hb) as [Hhi Hlo].
  destruct (rgb565_bytes r g b Br Bg Bb) as (_ & _ & Hsplit).
  repeat split; try assumption.
  apply rgb565_decode; assumption.
Qed.

(** A 4x1 panel on the secondary display's pins, fed red, green, blue,
    white. *)
Lemma image_packs_rgb565_witness :
  let p := {| W := 4; H := 1; SPD := ST7735.SPD; CS := ST_CS; DC := ST_DC;
              _window := ST7735._window |} in
  let raw := [255; 0; 0;  0; 255; 0;  0; 0; 255;  255; 255; 255] in
  exists buf,
    image p raw
      = Ok (_window p 0 0 (W p - 1) (H p - 1) ++ _dat (CS p) (DC p) buf (SPD p))
    /\ bytes_written (_dat (CS p) (DC p) buf (SPD p)) = buf
    /\ length buf = Z.to_nat (W p * H p * 2)
    /\ (forall (i : nat) r g b,
          raw !! (i * 3)%nat = Some r ->
          raw !! (i * 3 + 1)%nat = Some g ->
          raw !! (i * 3 + 2)%nat = Some b ->
          let c := rgb565 r g b in
          buf !! (i * 2)%nat = Some (Z.shiftr c 8)
          /\ buf !! (i * 2 + 1)%nat = Some (Z.land c 0xFF)
          /\ Z.shiftr c 8 * 256 + Z.land c 0xFF = c
          /\ decode565 c = (Z.shiftr r 3, Z.shiftr g 2, Z.shiftr b 3))
    /\ rgb565 255 0 0 = 0xF800
    /\ rgb565 0 255 0 = 0x07E0
    /\ rgb565 0 0 255 = 0x001F.
Proof.
  intros p raw.
  apply (image_packs_rgb565 p raw); [cbn; lia | reflexivity | reflexivity].
Defined.

(** Both display classes are panels the theorem applies to: 320x240 and
    160x128, i.e. frames of 230400 and 61440 bytes. *)
Example display_classes_sizes :
  W ILI9341.class * H ILI9341.class * 3 = 230400
  /\ W ST7735.class * H ST7735.class * 3 = 61440
  /\ 0 <= W ILI9341.class * H ILI9341.class
  /\ 0 <= W ST7735.class * H ST7735.class.
Proof. vm_compute. repeat split; discriminate. Qed.

(** The same frame, evaluated: the packed buffer is [F800 07E0 001F FFFF]. *)
Example image_4x1 :
  image {| W := 4; H := 1; SPD := ST7735.SPD; CS := ST_CS; DC := ST_DC;
           _window := ST7735._window |}
        [255; 0; 0;  0; 255; 0;  0; 0; 255;  255; 255; 255]
  = Ok (ST7735._window 0 0 3 0
        ++ _dat ST_CS ST_DC [0xF8; 0x00; 0x07; 0xE0; 0x00; 0x1F; 0xFF; 0xFF]
                ST7735.SPD).
Proof. vm_compute. reflexivity. Qed.

(** ** C2: chip-select around a command and its payload *)

Lemma is_cs_same cs level : is_cs cs level (GpioOutput cs level) = true.
Proof. unfold is_cs. rewrite Z.eqb_refl. destruct level; reflexivity. Qed.

Lemma is_cs_low_high cs : is_cs cs LOW (GpioOutput cs HIGH) = false.
Proof. unfold is_cs. rewrite Z.eqb_refl. reflexivity. Qed.

Lemma is_cs_other_pin cs pin l level :
  pin <> cs -> is_cs cs level (GpioOutput pin l) = false.
Proof.
  intros Hne. unfold is_cs.
  destruct (Z.eqb_spec pin cs); [contradiction | reflexivity].
Qed.

(** While selected, a run of writes followed by the release closes the
    bracket; what follows is checked with the bracket already used. *)
Lemma single_bracket_writes cs closed (cks : list (list Z)) (rest : trace) :
  single_bracket_from cs true closed
    (map WriteBytes2 cks ++ [GpioOutput cs HIGH; LockRelease] ++ rest)
  = single_bracket_from cs false true rest.
Proof.
  induction cks as [|c cks IH].
  - cbn [map app single_bracket_from].
    rewrite (is_cs_low_high cs), (is_cs_same cs HIGH). reflexivity.
  - cbn [map app single_bracket_from is_cs is_write]. exact IH.
Qed.

(** One [_write_bytes] opens and closes a bracket, provided none was
    closed before it. *)
Lemma write_bytes_bracket_from cs dc mode data speed closed (rest : trace) :
  dc <> cs ->
  single_bracket_from cs false closed (_write_bytes cs dc mode data speed ++ rest)
  = negb closed && single_bracket_from cs false true rest.
Proof.
  intros Hne. unfold _write_bytes.
  rewrite <- !app_assoc.
  cbn [app single_bracket_from].
  change (is_cs cs LOW LockAcquire) with false.
  change (is_cs cs HIGH LockAcquire) with false.
  change (is_cs cs LOW (SetSpeed speed)) with false.
  change (is_cs cs HIGH (SetSpeed speed)) with false.
  rewrite !(is_cs_other_pin cs dc) by assumption.
  rewrite (is_cs_same cs LOW).
  cbn [is_write negb andb].
  f_equal. exact (single_bracket_writes cs closed (chunks data) rest).
Qed.

Lemma write_bytes_single_bracket cs dc mode data speed :
  dc <> cs -> single_bracket cs (_write_bytes cs dc mode data speed) = true.
Proof.
  intros Hne. unfold single_bracket.
  rewrite <- (app_nil_r (_write_bytes cs dc mode data speed)).
  rewrite write_bytes_bracket_from by assumption. reflexivity.
Qed.

Lemma write_bytes_lock_held cs dc mode data speed :
  lock_held_throughout (_write_bytes cs dc mode data speed).
Proof.
  unfold lock_held_throughout, _write_bytes.
  exists ([SetSpeed speed; GpioOutput dc (if mode then HIGH else LOW);
           GpioOutput cs LOW]
          ++ map WriteBytes2 (chunks data) ++ [GpioOutput cs HIGH]).
  split.
  - cbn [app]. rewrite <- !app_assoc. reflexivity.
  - repeat (apply Forall_cons; split; [split; discriminate|]).
    apply Forall_app. split.
    + apply Forall_forall. intros e He.
      apply list_elem_of_In, in_map_iff in He. destruct He as (c & <- & _).
      split; discriminate.
    + repeat constructor; discriminate.
Qed.

(** The orientation command of the primary panel, [c(0x36, [0xE8])]: the
    chip-select is released after the command byte and asserted again for
    the payload byte, and the lock is released in between. *)
Lemma cmd_dat_releases_cs_between :
  ILI9341._c 0x36 (Some [0xE8])
  = [LockAcquire; SetSpeed 40000000; GpioOutput ILI_DC LOW;
     GpioOutput ILI_CS LOW; WriteBytes2 [0x36]; GpioOutput ILI_CS HIGH;
     LockRelease;
     LockAcquire; SetSpeed 40000000; GpioOutput ILI_DC HIGH;
     GpioOutput ILI_CS LOW; WriteBytes2 [0xE8]; GpioOutput ILI_CS HIGH;
     LockRelease]
  /\ single_bracket ILI_CS (ILI9341._c 0x36 (Some [0xE8])) = false
  /\ ~ lock_held_throughout (ILI9341._c 0x36 (Some [0xE8])).
Proof.
  assert (Htrace : ILI9341._c 0x36 (Some [0xE8])
    = LockAcquire ::
      [SetSpeed 40000000; GpioOutput ILI_DC LOW;
       GpioOutput ILI_CS LOW; WriteBytes2 [0x36]; GpioOutput ILI_CS HIGH;
       LockRelease;
       LockAcquire; SetSpeed 40000000; GpioOutput ILI_DC HIGH;
       GpioOutput ILI_CS LOW; WriteBytes2 [0xE8]; GpioOutput ILI_CS HIGH]
      ++ [LockRelease]) by (vm_compute; reflexivity).
  split; [exact Htrace|].
  split; [vm_compute; reflexivity|].
  intros (body & Heq & Hbody).
  rewrite Htrace in Heq. injection Heq as Heq.
  apply (app_inv_tail [LockRelease]
    [SetSpeed 40000000; GpioOutput ILI_DC LOW;
     GpioOutput ILI_CS LOW; WriteBytes2 [0x36]; GpioOutput ILI_CS HIGH;
     LockRelease;
     LockAcquire; SetSpeed 40000000; GpioOutput ILI_DC HIGH;
     GpioOutput ILI_CS LOW; WriteBytes2 [0xE8]; GpioOutput ILI_CS HIGH]
    body) in Heq.
  subst body.
  rewrite Forall_forall in Hbody.
  destruct (Hbody LockRelease) as [_ Hrel]; [|congruence].
  repeat (first [apply list_elem_of_here | apply list_elem_of_further]).
Qed.

(** C2, as the code has it.  Each single transfer ([_write_bytes]: a
    command byte, or a payload) is bracketed on its own: with the lock
    held throughout, chip-select goes low before the first byte, stays
    low through the last, and goes high right after.  A command with a
    payload is two such transfers in sequence, the command byte in
    command mode and then the payload in data mode; a command with no
    payload (absent or empty) is the first one alone. *)
Theorem cmd_dat_is_two_brackets (cs dc cmd speed : Z) (data : option (list Z)) :
  dc <> cs ->
  (forall mode bytes,
      single_bracket cs (_write_bytes cs dc mode bytes speed) = true
      /\ lock_held_throughout (_write_bytes cs dc mode bytes speed)
      /\ bytes_written (_write_bytes cs dc mode bytes speed) = bytes)
  /\ _cmd_dat cs dc cmd data speed
     = _write_bytes cs dc false [cmd] speed
       ++ match data with
          | Some (b :: bs) => _write_bytes cs dc true (b :: bs) speed
          | _ => []
          end
  /\ (forall b bs, data = Some (b :: bs) ->
        single_bracket cs (_cmd_dat cs dc cmd data speed) = false)
  /\ (data = None \/ data = Some [] ->
        single_bracket cs (_cmd_dat cs dc cmd data speed) = true).
Proof.
  intros Hne. split; [|split; [|split]].
  - intros mode bytes. split; [|split].
    + apply write_bytes_single_bracket, Hne.
    + apply write_bytes_lock_held.
    + apply bytes_written_write_bytes.
  - reflexivity.
  - intros b bs ->. unfold single_bracket, _cmd_dat, _cmd, _dat.
    rewrite write_bytes_bracket_from by assumption.
    rewrite <- (app_nil_r (_write_bytes cs dc true (b :: bs) speed)).
    rewrite write_bytes_bracket_from by assumption. reflexivity.
  - intros Hd.
    assert (Heq : _cmd_dat cs dc cmd data speed = _write_bytes cs dc false [cmd] speed).
    { unfold _cmd_dat, _cmd. destruct Hd as [-> | ->]; apply app_nil_r. }
    rewrite Heq. apply write_bytes_single_bracket, Hne.
Qed.

Lemma cmd_dat_is_two_brackets_witness :
  _cmd_dat ILI_CS ILI_DC 0x2A (Some [0; 0; 1; 63]) 40000000
  = _write_bytes ILI_CS ILI_DC false [0x2A] 40000000
    ++ _write_bytes ILI_CS ILI_DC true [0; 0; 1; 63] 40000000.
Proof.
  assert (Hne : ILI_DC <> ILI_CS) by (unfold ILI_DC, ILI_CS; lia).
  exact (proj1 (proj2
    (cmd_dat_is_two_brackets ILI_CS ILI_DC 0x2A 40000000 (Some [0; 0; 1; 63]) Hne))).
Defined.

(** ** C6: the touch noise filter *)

Lemma sorted_permutation vals :
  merge_sort Z.le vals ≡ₚ vals /\ StronglySorted Z.le (merge_sort Z.le vals).
Proof.
  split.
  - apply merge_sort_Permutation.
  - apply StronglySorted_merge_sort; [intros x y z; lia | intros x y; lia].
Qed.


(** Eight sorted values, spelled out. *)
Lemma sorted_eight (l : list Z) :
  length l = 8%nat -> StronglySorted Z.le l ->
  exists s0 s1 s2 s3 s4 s5 s6 s7,
    l = [s0; s1; s2; s3; s4; s5; s6; s7]
    /\ s0 <= s1 /\ s1 <= s2 /\ s2 <= s3 /\ s3 <= s4
    /\ s4 <= s5 /\ s5 <= s6 /\ s6 <= s7.
Proof.
  intros Hlen Hs.
  do 8 (destruct l as [|? l]; [discriminate Hlen|]).
  destruct l; [|discriminate Hlen].
  do 8 eexists. split; [reflexivity|].
  repeat match goal with
         | H : StronglySorted _ (_ :: _) |- _ =>
             apply StronglySorted_inv in H; destruct H as [H ?]
         | H : Forall _ (_ :: _) |- _ =>
             apply Forall_cons in H; destruct H as [? H]
         end.
  repeat split; assumption.
Qed.

Lemma median_mean_eight (vals : list Z) :
  length vals = 8%nat ->
  exists s0 s1 s2 s3 s4 s5 s6 s7,
    merge_sort Z.le vals = [s0; s1; s2; s3; s4; s5; s6; s7]
    /\ [s0; s1; s2; s3; s4; s5; s6; s7] ≡ₚ vals
    /\ s0 <= s1 /\ s1 <= s2 /\ s2 <= s3 /\ s3 <= s4
    /\ s4 <= s5 /\ s5 <= s6 /\ s6 <= s7
    /\ median_mean vals = (s2 + s3 + s4 + s5) / 4.
Proof.
  intros Hlen.
  destruct (sorted_permutation vals) as [Hperm Hsorted].
  assert (Hlen' : length (merge_sort Z.le vals) = 8%nat)
    by (rewrite Hperm; exact Hlen).
  destruct (sorted_eight _ Hlen' Hsorted)
    as (s0 & s1 & s2 & s3 & s4 & s5 & s6 & s7 & Heq & Hle).
  exists s0, s1, s2, s3, s4, s5, s6, s7.
  split; [exact Heq|]. split; [rewrite <- Heq; exact Hperm|].
  destruct Hle as (H01 & H12 & H23 & H34 & H45 & H56 & H67).
  repeat (split; [assumption|]).
  unfold median_mean. rewrite Heq. cbn. reflexivity.
Qed.

(** The result lies between the least and the greatest sample. *)
Lemma median_mean_between (vals : list Z) :
  length vals = 8%nat ->
  exists lo hi,
    lo ∈ vals /\ hi ∈ vals
    /\ (forall v, v ∈ vals -> lo <= v <= hi)
    /\ lo <= median_mean vals <= hi.
Proof.
  intros Hlen.
  destruct (median_mean_eight vals Hlen)
    as (s0 & s1 & s2 & s3 & s4 & s5 & s6 & s7 & _ & Hperm
        & H01 & H12 & H23 & H34 & H45 & H56 & H67 & Hval).
  exists s0, s7.
  split; [rewrite <- Hperm; apply list_elem_of_here|].
  split; [rewrite <- Hperm;
          repeat (first [apply list_elem_of_here | apply list_elem_of_further])|].
  split.
  - intros v Hv. rewrite <- Hperm in Hv.
    repeat (apply elem_of_cons in Hv; destruct Hv as [-> | Hv]; [lia|]).
    apply elem_of_nil in Hv. contradiction.
  - rewrite Hval. zdiv.
Qed.



(** ** The range of the raw samples *)

Lemma sample_of_range r0 r1 r2 :
  0 <= r1 < 256 -> 0 <= r2 < 256 -> 0 <= sample_of (r0, r1, r2) < 8192.
Proof.
  intros H1 H2. unfold sample_of.
  rewrite Z.shiftl_mul_pow2, Z.shiftr_div_pow2 by lia.
  rewrite lor_disjoint by lia.
  change (2 ^ 8) with 256. change (2 ^ 3) with 8. zdiv.
Qed.

Lemma ch_range dev cmd : byte_replies dev -> 0 <= ch dev cmd < 8192.
Proof.
  intros Hdev. unfold ch.
  set (vals := map (fun k => sample_of (dev cmd k)) (seq 0 8)).
  destruct (median_mean_between vals eq_refl)
    as (lo & hi & Hlo & Hhi & _ & Hbetween).
  assert (Hvals : forall v, v ∈ vals -> 0 <= v < 8192).
  { intros v Hv. apply list_elem_of_In, in_map_iff in Hv.
    destruct Hv as (k & <- & _).
    specialize (Hdev cmd k). destruct (dev cmd k) as [[r0 r1] r2].
    apply sample_of_range; tauto. }
  apply Hvals in Hlo. apply Hvals in Hhi. lia.
Qed.

(** ** The scaling, on the configured ranges *)

(** For every sample the controller can deliver, the floating-point
    computation of [scale] gives the exact quotient, truncated. *)
Lemma scale_x_configured raw :
  0 <= raw < 8192 ->
  scale raw 445 3492 320 = Ok (Z.quot ((raw - 445) * 320) 3047).
Proof.
  intros Hraw.
  assert (H : scale_exact 445 3492 320 raw = true).
  { apply (forallb_below 8192 (scale_exact 445 3492 320)); [|lia].
    vm_compute. reflexivity. }
  unfold scale_exact in H.
  destruct (scale raw 445 3492 320) as [v|e]; [|discriminate].
  apply Z.eqb_eq in H. rewrite H. reflexivity.
Qed.

Lemma scale_y_configured raw :
  0 <= raw < 8192 ->
  scale raw 606 3615 240 = Ok (Z.quot ((raw - 606) * 240) 3009).
Proof.
  intros Hraw.
  assert (H : scale_exact 606 3615 240 raw = true).
  { apply (forallb_below 8192 (scale_exact 606 3615 240)); [|lia].
    vm_compute. reflexivity. }
  unfold scale_exact in H.
  destruct (scale raw 606 3615 240) as [v|e]; [|discriminate].
  apply Z.eqb_eq in H. rewrite H. reflexivity.
Qed.

(** ** C3: calibrated coordinates *)

Lemma bind_Ok {A B} (m : result A) (k : A -> result B) b :
  bind m k = Ok b -> exists a, m = Ok a /\ k a = Ok b.
Proof. destruct m as [a|e]; cbn; [eauto | discriminate]. Qed.

Lemma read_touch_Some cfg irq dev pt :
  read_touch cfg irq dev = Ok (Some pt) -> calibrate cfg (_raw_touch dev) = Ok pt.
Proof.
  unfold read_touch.
  destruct (TOUCH_IRQ_ACTIVE_HIGH cfg), irq; cbn [negb];
    try discriminate;
    intros H; apply bind_Ok in H; destruct H as (pt' & Hc & Heq);
    injection Heq as ->; exact Hc.
Qed.

(** What [calibrate] returns, in terms of the two scalings. *)
Lemma calibrate_Ok cfg raw pt :
  calibrate cfg raw = Ok pt ->
  exists x y,
    scale (fst (swapped cfg raw)) (CAL_X_MIN cfg) (CAL_X_MAX cfg) (SCREEN_W cfg) = Ok x
    /\ scale (snd (swapped cfg raw)) (CAL_Y_MIN cfg) (CAL_Y_MAX cfg) (SCREEN_H cfg) = Ok y
    /\ pt = (Z.max 0 (Z.min (SCREEN_W cfg - 1)
                        (if CAL_FLIP_X cfg then SCREEN_W cfg - 1 - x else x)),
             Z.max 0 (Z.min (SCREEN_H cfg - 1)
                        (if CAL_FLIP_Y cfg then SCREEN_H cfg - 1 - y else y))).
Proof.
  unfold calibrate, swapped. destruct raw as [rx ry].
  destruct (CAL_SWAP_XY cfg); cbn [fst snd];
    intros H;
    apply bind_Ok in H; destruct H as (x & Hx & H);
    apply bind_Ok in H; destruct H as (y & Hy & H);
    injection H as <-; exists x, y; auto.
Qed.

(** C3.  Whenever [read_touch] returns a point it lies in
    [0, W-1] x [0, H-1], for every profile and every raw pair.  Under the
    configured calibration ranges, a raw pair that after the optional swap
    sits at [x_min] / [x_max] maps to column [0] / [W-1], and one at
    [y_min] / [y_max] maps to row [0] / [H-1]: with the configured flags
    (no flip) the four extremes map to the screen corners (0,0), (W-1,0),
    (0,H-1), (W-1,H-1); a flip flag, were it set, exchanges the two ends
    of its axis.  Under these profiles a touch always yields a point when
    the controller replies with bytes. *)
Theorem read_touch_clamped_corners
        (cfg : config) (irq : bool) (dev : device) (pt : Z * Z) :
  1 <= SCREEN_W cfg -> 1 <= SCREEN_H cfg ->
  read_touch cfg irq dev = Ok (Some pt) ->
  (0 <= fst pt <= SCREEN_W cfg - 1 /\ 0 <= snd pt <= SCREEN_H cfg - 1)
  /\ (forall s fx fy, cfg = with_flags s fx fy configured ->
        let raw := swapped cfg (_raw_touch dev) in
        (fst raw = CAL_X_MIN cfg ->
         fst pt = if CAL_FLIP_X cfg then SCREEN_W cfg - 1 else 0)
        /\ (fst raw = CAL_X_MAX cfg ->
            fst pt = if CAL_FLIP_X cfg then 0 else SCREEN_W cfg - 1)
        /\ (snd raw = CAL_Y_MIN cfg ->
            snd pt = if CAL_FLIP_Y cfg then SCREEN_H cfg - 1 else 0)
        /\ (snd raw = CAL_Y_MAX cfg ->
            snd pt = if CAL_FLIP_Y cfg then 0 else SCREEN_H cfg - 1))
  /\ (CAL_FLIP_X configured = false /\ CAL_FLIP_Y configured = false
      /\ CAL_SWAP_XY configured = false)
  /\ (forall s fx fy dev', byte_replies dev' ->
        exists pt',
          read_touch (with_flags s fx fy configured) false dev' = Ok (Some pt')).
Proof.
  intros HW HH Hread.
  apply read_touch_Some, calibrate_Ok in Hread.
  destruct Hread as (x & y & Hx & Hy & ->). cbn [fst snd].
  split; [lia|]. split; [|split; [repeat split|]].
  - intros s fx fy ->.
    cbn [with_flags configured CAL_X_MIN CAL_X_MAX CAL_Y_MIN CAL_Y_MAX
         SCREEN_W SCREEN_H CAL_FLIP_X CAL_FLIP_Y] in *.
    repeat split; intros Hraw; rewrite Hraw in *.
    + vm_compute in Hx. injection Hx as <-. destruct fx; reflexivity.
    + vm_compute in Hx. injection Hx as <-. destruct fx; reflexivity.
    + vm_compute in Hy. injection Hy as <-. destruct fy; reflexivity.
    + vm_compute in Hy. injection Hy as <-. destruct fy; reflexivity.
  - intros s fx fy dev' Hdev.
    pose proof (ch_range dev' TOUCH_X_CMD Hdev) as Rx.
    pose proof (ch_range dev' TOUCH_Y_CMD Hdev) as Ry.
    unfold read_touch, calibrate, _raw_touch.
    cbn [with_flags configured TOUCH_IRQ_ACTIVE_HIGH CAL_SWAP_XY negb
         CAL_X_MIN CAL_X_MAX CAL_Y_MIN CAL_Y_MAX SCREEN_W SCREEN_H
         CAL_FLIP_X CAL_FLIP_Y].
    destruct s.
    + rewrite (scale_x_configured _ Ry), (scale_y_configured _ Rx).
      cbn [bind]. eexists. reflexivity.
    + rewrite (scale_x_configured _ Rx), (scale_y_configured _ Ry).
      cbn [bind]. eexists. reflexivity.
Qed.

(** A press whose every reply is [00 6D 20], i.e. the sample 3492 (the
    configured [x_max]) on both channels: the column is [W - 1]. *)
Lemma read_touch_clamped_corners_witness :
  read_touch configured false (steady (0, 0x6D, 0x20)) = Ok (Some (319, 230))
  /\ _raw_touch (steady (0, 0x6D, 0x20)) = (3492, 3492)
  /\ (0 <= 319 <= SCREEN_W configured - 1 /\ 0 <= 230 <= SCREEN_H configured - 1)
  /\ 319 = SCREEN_W configured - 1.
Proof.
  assert (Hrun : read_touch configured false (steady (0, 0x6D, 0x20))
                 = Ok (Some (319, 230))) by (vm_compute; reflexivity).
  split; [exact Hrun|].
  split; [vm_compute; reflexivity|].
  destruct (read_touch_clamped_corners configured false
              (steady (0, 0x6D, 0x20)) (319, 230))
    as (Hbounds & Hcorner & _);
    [cbn; lia | cbn; lia | exact Hrun |].
  split; [exact Hbounds|].
  destruct (Hcorner false false false eq_refl) as (_ & Hright & _).
  apply Hright. vm_compute. reflexivity.
Defined.

(** The four calibration extremes and two raw pairs beyond the range,
    under the configured profile. *)
Example calibrate_corners :
  calibrate configured (445, 606) = Ok (0, 0)
  /\ calibrate configured (3492, 606) = Ok (319, 0)
  /\ calibrate configured (445, 3615) = Ok (0, 239)
  /\ calibrate configured (3492, 3615) = Ok (319, 239)
  /\ calibrate configured (0, 0) = Ok (0, 0)
  /\ calibrate configured (4095, 4095) = Ok (319, 239).
Proof. vm_compute. repeat split. Qed.

(** The same four extremes under the flags of the bring-up script
    [test-ili9341-with-touch.py] (swap, flip Y): the raw pair is given in
    channel order, and the rows come out mirrored. *)
Example calibrate_corners_swapped_flipped :
  calibrate (with_flags true false true configured) (606, 445) = Ok (0, 239)
  /\ calibrate (with_flags true false true configured) (606, 3492) = Ok (319, 239)
  /\ calibrate (with_flags true false true configured) (3615, 445) = Ok (0, 0)
  /\ calibrate (with_flags true false true configured) (3615, 3492) = Ok (319, 0).
Proof. vm_compute. repeat split. Qed.

(** ** C4: degenerate calibration ranges *)

Lemma int_of_float_never_zero_division f :
  int_of_float f <> Raise ZeroDivisionError.
Proof.
  unfold int_of_float. destruct (Prim2SF f) as [s|s| |s m e]; discriminate.
Qed.

Lemma scale_never_zero_division raw lo hi extent :
  scale raw lo hi extent <> Raise ZeroDivisionError.
Proof.
  unfold scale, truediv.
  destruct (Z.eqb_spec (Z.max 1 (hi - lo)) 0) as [Hz|_]; [lia|].
  cbn [bind]. apply int_of_float_never_zero_division.
Qed.

Lemma calibrate_never_zero_division cfg raw :
  calibrate cfg raw <> Raise ZeroDivisionError.
Proof.
  unfold calibrate. destruct raw as [rx ry].
  destruct (CAL_SWAP_XY cfg).
  - pose proof (scale_never_zero_division ry (CAL_X_MIN cfg) (CAL_X_MAX cfg) (SCREEN_W cfg)).
    pose proof (scale_never_zero_division rx (CAL_Y_MIN cfg) (CAL_Y_MAX cfg) (SCREEN_H cfg)).
    destruct (scale ry _ _ _) as [x|ex]; cbn [bind]; [|congruence].
    destruct (scale rx _ _ _) as [y|ey]; cbn [bind]; [discriminate|congruence].
  - pose proof (scale_never_zero_division rx (CAL_X_MIN cfg) (CAL_X_MAX cfg) (SCREEN_W cfg)).
    pose proof (scale_never_zero_division ry (CAL_Y_MIN cfg) (CAL_Y_MAX cfg) (SCREEN_H cfg)).
    destruct (scale rx _ _ _) as [x|ex]; cbn [bind]; [|congruence].
    destruct (scale ry _ _ _) as [y|ey]; cbn [bind]; [discriminate|congruence].
Qed.

(** A profile whose X range is a single point is not turned away: a
    press whose replies are [00 0D F0] (sample 446) is scaled with the
    divisor 1 and reported as the pixel (319, 0). *)
Lemma degenerate_range_is_sampled :
  degenerate collapsed_x
  /\ read_touch collapsed_x false (steady (0, 0x0D, 0xF0)) = Ok (Some (319, 0))
  /\ ~ (forall cfg, degenerate cfg ->
          forall irq dev pt, read_touch cfg irq dev <> Ok (Some pt)).
Proof.
  assert (Hdeg : degenerate collapsed_x) by (left; reflexivity).
  assert (Hrun : read_touch collapsed_x false (steady (0, 0x0D, 0xF0))
                 = Ok (Some (319, 0))) by (vm_compute; reflexivity).
  split; [exact Hdeg|]. split; [exact Hrun|].
  intros Hrej. exact (Hrej collapsed_x Hdeg false _ _ Hrun).
Qed.

(** C4, as the code has it.  No profile is rejected: [read_touch] guards
    each sample by dividing by [max(1, max - min)].  That divisor is at
    least 1 under every profile (exactly 1 when the range is degenerate),
    so [read_touch] never raises a division by zero. *)
Theorem read_touch_never_divides_by_zero (cfg : config) (irq : bool) (dev : device) :
  1 <= Z.max 1 (CAL_X_MAX cfg - CAL_X_MIN cfg)
  /\ 1 <= Z.max 1 (CAL_Y_MAX cfg - CAL_Y_MIN cfg)
  /\ (CAL_X_MAX cfg = CAL_X_MIN cfg -> Z.max 1 (CAL_X_MAX cfg - CAL_X_MIN cfg) = 1)
  /\ (CAL_Y_MAX cfg = CAL_Y_MIN cfg -> Z.max 1 (CAL_Y_MAX cfg - CAL_Y_MIN cfg) = 1)
  /\ (forall raw lo hi extent,
        scale raw lo hi extent
        = int_of_float (fmul_int (PrimFloat.div (float_of_int (raw - lo))
                                               (float_of_int (Z.max 1 (hi - lo))))
                                 extent))
  /\ read_touch cfg irq dev <> Raise ZeroDivisionError.
Proof.
  split; [lia|]. split; [lia|]. split; [lia|]. split; [lia|]. split.
  - intros raw lo hi extent. unfold scale, truediv.
    destruct (Z.eqb_spec (Z.max 1 (hi - lo)) 0) as [Hz|_]; [lia|]. reflexivity.
  - pose proof (calibrate_never_zero_division cfg (_raw_touch dev)) as Hc.
    unfold read_touch.
    destruct (TOUCH_IRQ_ACTIVE_HIGH cfg), irq; cbn [negb]; try discriminate;
      destruct (calibrate cfg (_raw_touch dev)) as [pt|e]; cbn [bind];
      congruence.
Qed.

(** ** C7: hit testing *)

Lemma inside_bounds {A} (tx ty x0 y0 x1 y1 : Z) (p : A) :
  inside tx ty (x0, y0, x1, y1, p) = true <-> x0 <= tx <= x1 /\ y0 <= ty <= y1.
Proof.
  unfold inside. rewrite !andb_true_iff, !Z.leb_le. tauto.
Qed.

Lemma hit_test_None {A} (tx ty : Z) (regions : list (region A)) :
  hit_test tx ty regions = None
  <-> Forall (fun r => inside tx ty r = false) regions.
Proof.
  induction regions as [|r rest IH]; cbn [hit_test].
  - split; [constructor | reflexivity].
  - destruct (inside tx ty r) eqn:Hin.
    + split; [discriminate|]. intros H. apply Forall_cons in H.
      destruct H as [H _]. congruence.
    + rewrite IH. split.
      * intros H. apply Forall_cons. split; assumption.
      * intros H. apply Forall_cons in H. tauto.
Qed.

Lemma hit_test_Some {A} (tx ty : Z) (regions : list (region A)) (p : A) :
  hit_test tx ty regions = Some p
  <-> exists before r after,
        regions = before ++ r :: after
        /\ Forall (fun r' => inside tx ty r' = false) before
        /\ inside tx ty r = true
        /\ payload r = p.
Proof.
  induction regions as [|r rest IH]; cbn [hit_test].
  - split; [discriminate|].
    intros (before & r & after & Heq & _). destruct before; discriminate.
  - destruct (inside tx ty r) eqn:Hin.
    + split.
      * intros [= <-]. exists [], r, rest. repeat split; auto.
      * intros (before & r' & after & Heq & Hbefore & Hin' & Hp).
        destruct before as [|b before].
        -- cbn in Heq. injection Heq as -> ->. congruence.
        -- cbn in Heq. injection Heq as -> ->.
           apply Forall_cons in Hbefore. destruct Hbefore as [Hb _]. congruence.
    + rewrite IH. split.
      * intros (before & r' & after & -> & Hbefore & Hin' & Hp).
        exists (r :: before), r', after. repeat split; auto.
      * intros (before & r' & after & Heq & Hbefore & Hin' & Hp).
        destruct before as [|b before].
        -- cbn in Heq. injection Heq as -> ->. congruence.
        -- cbn in Heq. injection Heq as -> ->.
           apply Forall_cons in Hbefore. destruct Hbefore as [_ Hbefore].
           exists before, r', after. repeat split; auto.
Qed.

(** C7.  [hit_test] returns the payload of the first region, in the
    order of the list, whose rectangle contains the point, both bounds
    included on each axis; it returns [None] exactly when no region of
    the list contains the point. *)
Theorem hit_test_first_containing {A} (tx ty : Z) (regions : list (region A)) :
  (forall p,
      hit_test tx ty regions = Some p
      <-> exists before r after,
            regions = before ++ r :: after
            /\ Forall (fun r' => inside tx ty r' = false) before
            /\ inside tx ty r = true
            /\ payload r = p)
  /\ (hit_test tx ty regions = None
      <-> Forall (fun r => inside tx ty r = false) regions)
  /\ (forall x0 y0 x1 y1 (p : A),
        inside tx ty (x0, y0, x1, y1, p) = true
        <-> x0 <= tx <= x1 /\ y0 <= ty <= y1).
Proof.
  split; [|split].
  - intros p. apply hit_test_Some.
  - apply hit_test_None.
  - intros. apply inside_bounds.
Qed.

(** Two overlapping regions: the one declared first wins; the far edge
    is inside; a point outside both gives nothing. *)
Example hit_test_overlap :
  hit_test 5 5 [(0, 0, 10, 10, "a"); (0, 0, 20, 20, "b")] = Some "a"
  /\ hit_test 10 10 [(0, 0, 10, 10, "a"); (0, 0, 20, 20, "b")] = Some "a"
  /\ hit_test 11 10 [(0, 0, 10, 10, "a"); (0, 0, 20, 20, "b")] = Some "b"
  /\ hit_test 21 5 [(0, 0, 10, 10, "a"); (0, 0, 20, 20, "b")] = None.
Proof. vm_compute. repeat split. Qed.

(** ** C8: leaving the focus screen *)

Lemma back_region_hit (x y : Z) :
  0 <= x <= 100 -> ILI_H - BOT_H <= y <= ILI_H ->
  if_true (hit_test x y BACK_REGION) = Some SCREEN_DASHBOARD.
Proof.
  intros Hx Hy. unfold BACK_REGION. cbn [hit_test].
  rewrite (proj2 (inside_bounds x y 0 (ILI_H - BOT_H) 100 ILI_H SCREEN_DASHBOARD))
    by (split; assumption).
  reflexivity.
Qed.

(** C8.  On the focus screen with a session running, a touch inside
    the back region makes [handle_touch] report a change and leaves the
    screen at the dashboard, the session inactive and its elapsed
    counter at 0 (the message reads "Session ended.", nothing else
    changes); the loop applies exactly that when the touch passes the
    debounce. *)
Theorem back_from_focus_cancels_session (st : AppState) (x y : Z) :
  screen st = SCREEN_FOCUS ->
  focus_active st = true ->
  0 <= x <= 100 -> ILI_H - BOT_H <= y <= ILI_H ->
  exists st',
    handle_touch x y st = (true, st')
    /\ screen st' = SCREEN_DASHBOARD
    /\ focus_active st' = false
    /\ focus_elapsed_mins st' = 0
    /\ focus_message st' = "Session ended."
    /\ focus_session_mins st' = focus_session_mins st
    /\ clean_done st' = clean_done st
    /\ apps_rects st' = apps_rects st
    /\ (forall t last,
          debounce_passes (now_ms t) last = true ->
          touch_poll (Some (x, y)) t last st
          = (now_ms t, st', Some (now_ms t, x, y))).
Proof.
  intros Hscreen Hactive Hx Hy.
  assert (Hrun : handle_touch x y st
                 = (true, set_screen SCREEN_DASHBOARD
                            (set_focus false 0 "Session ended." st))).
  { unfold handle_touch. rewrite Hscreen, Hactive.
    change (String.eqb SCREEN_FOCUS SCREEN_DASHBOARD) with false.
    change (String.eqb SCREEN_FOCUS SCREEN_APPS) with false.
    change (String.eqb SCREEN_FOCUS SCREEN_FOCUS) with true.
    change (String.eqb SCREEN_FOCUS SCREEN_SYSMON) with false.
    rewrite (back_region_hit x y Hx Hy). reflexivity. }
  eexists. split; [exact Hrun|].
  repeat (split; [reflexivity|]).
  intros t last Hpass. unfold touch_poll. rewrite Hpass, Hrun. reflexivity.
Qed.

Lemma back_from_focus_cancels_session_witness :
  handle_touch 40 230
    {| screen := SCREEN_FOCUS; apps_rects := []; clean_done := false;
       focus_session_mins := 25; focus_elapsed_mins := 8;
       focus_active := true; focus_message := "" |}
  = (true,
     {| screen := SCREEN_DASHBOARD; apps_rects := []; clean_done := false;
        focus_session_mins := 25; focus_elapsed_mins := 0;
        focus_active := false; focus_message := "Session ended." |}).
Proof.
  destruct (back_from_focus_cancels_session
              {| screen := SCREEN_FOCUS; apps_rects := []; clean_done := false;
                 focus_session_mins := 25; focus_elapsed_mins := 8;
                 focus_active := true; focus_message := "" |} 40 230)
    as (st' & Hrun & _);
    [reflexivity | reflexivity | lia | unfold ILI_H, BOT_H; lia |].
  rewrite Hrun. f_equal.
  vm_compute in Hrun. injection Hrun as <-. reflexivity.
Defined.

(** ** C5: the debounce window *)


Lemma touch_poll_passes x y t last st :
  debounce_passes (now_ms t) last = true ->
  touch_poll (Some (x, y)) t last st
  = (now_ms t, snd (handle_touch x y st), Some (now_ms t, x, y)).
Proof. intros H. unfold touch_poll. rewrite H. reflexivity. Qed.

Lemma touch_poll_held_back pt t last st :
  (pt <> None -> debounce_passes (now_ms t) last = false) ->
  touch_poll pt t last st = (last, st, None).
Proof.
  intros H. unfold touch_poll. destruct pt as [[x y]|]; [|reflexivity].
  rewrite H by discriminate. reflexivity.
Qed.

(** The calls the loop makes are spaced by more than the interval. *)
Lemma touch_loop_spaced polls :
  forall last st,
    spaced last (snd (touch_loop polls last st))
    /\ (snd (touch_loop polls last st) = [] ->
        fst (fst (touch_loop polls last st)) = last).
Proof.
  induction polls as [|[pt t] rest IH]; intros last st.
  - cbn. auto.
  - cbn [touch_loop]. unfold touch_poll.
    destruct pt as [[x y]|].
    + destruct (debounce_passes (now_ms t) last) eqn:Hpass.
      * specialize (IH (now_ms t) (snd (handle_touch x y st))).
        destruct (touch_loop rest _ _) as [[l s] rs]. cbn [fst snd] in *.
        split; [|discriminate]. split; [exact Hpass | tauto].
      * specialize (IH last st).
        destruct (touch_loop rest _ _) as [[l s] rs]. exact IH.
    + specialize (IH last st).
      destruct (touch_loop rest _ _) as [[l s] rs]. exact IH.
Qed.

(** ** C9: which touches hold back the next ones *)

(** Three touches a quarter of a second apart, from the state [main]
    starts in.  The first is routed; the second is detected but held
    back, and does not move [last_touch_ms]; the third comes 250 ms
    after the second, yet 500 ms after the first, and is routed. *)
Lemma held_back_touch_does_not_restart_window :
  touch_loop [(Some (200, 200), 1%float);
              (Some (200, 200), 1.25%float);
              (Some (50, 120), 1.5%float)]
             initial_last_touch_ms init
  = (1500%float,
     snd (handle_touch 50 120 init),
     [(1000%float, 200, 200); (1500%float, 50, 120)])
  /\ PrimFloat.sub (now_ms 1.5%float) (now_ms 1.25%float) = 250%float
  /\ within_window (now_ms 1.5%float) (now_ms 1.25%float)
  /\ ~ every_detection_holds_back.
Proof.
  assert (Hrun : touch_loop [(Some (200, 200), 1%float);
                             (Some (200, 200), 1.25%float);
                             (Some (50, 120), 1.5%float)]
                            initial_last_touch_ms init
                 = (1500%float, snd (handle_touch 50 120 init),
                    [(1000%float, 200, 200); (1500%float, 50, 120)]))
    by (vm_compute; reflexivity).
  assert (Hwin : within_window (now_ms 1.5%float) (now_ms 1.25%float))
    by (vm_compute; reflexivity).
  split; [exact Hrun|]. split; [vm_compute; reflexivity|]. split; [exact Hwin|].
  intros Hclaim.
  apply (Hclaim [(Some (200, 200), 1%float);
                 (Some (200, 200), 1.25%float);
                 (Some (50, 120), 1.5%float)]
                initial_last_touch_ms init
                1%nat 2%nat 200 200 1.25%float 50 120 1.5%float);
    [lia | reflexivity | reflexivity | exact Hwin |].
  rewrite Hrun. cbn [snd].
  apply list_elem_of_further, list_elem_of_here.
Qed.

(** Once a touch has moved [last_touch_ms] to [t], every later poll that
    finds a touch within the window of [t] changes nothing and routes
    nothing. *)
Lemma touch_loop_held_back (t : float) polls :
  Forall (fun q => fst q <> None -> within_window (now_ms (snd q)) t) polls ->
  forall st, touch_loop polls t st = (t, st, []).
Proof.
  induction 1 as [|[pt t'] rest Hq _ IH]; intros st.
  - reflexivity.
  - cbn [touch_loop]. cbn [fst snd] in Hq.
    rewrite (touch_poll_held_back pt t' t st Hq), IH. reflexivity.
Qed.

(** C9, as the code has it.  A detected touch that passes the debounce
    moves [last_touch_ms] to its own time before it is routed, whatever
    [handle_touch] then does: also when it matches no region and leaves
    the state as it was.  From then on every touch detected within
    300 ms of that touch is held back: not routed, and not recorded
    either, so it does not move [last_touch_ms]. *)
Theorem passed_touch_opens_window
        (x y : Z) (t last : float) (st : AppState) :
  debounce_passes (now_ms t) last = true ->
  touch_poll (Some (x, y)) t last st
  = (now_ms t, snd (handle_touch x y st), Some (now_ms t, x, y))
  /\ (handle_touch x y st = (false, st) ->
      touch_poll (Some (x, y)) t last st = (now_ms t, st, Some (now_ms t, x, y)))
  /\ (forall polls st',
        Forall (fun q => fst q <> None ->
                         within_window (now_ms (snd q)) (now_ms t)) polls ->
        touch_loop polls (now_ms t) st' = (now_ms t, st', []))
  /\ (forall pt' t' last' st',
        (pt' <> None -> within_window (now_ms t') last') ->
        touch_poll pt' t' last' st' = (last', st', None)).
Proof.
  intros Hpass. split; [|split; [|split]].
  - apply touch_poll_passes, Hpass.
  - intros Hmiss. rewrite (touch_poll_passes _ _ _ _ _ Hpass), Hmiss. reflexivity.
  - intros polls st' Hall. apply touch_loop_held_back, Hall.
  - intros pt' t' last' st' H. apply touch_poll_held_back, H.
Qed.

(** A touch on the dashboard away from the chart: it matches nothing
    and changes nothing, and still moves [last_touch_ms]. *)
Lemma passed_touch_opens_window_witness :
  handle_touch 200 200 init = (false, init)
  /\ touch_poll (Some (200, 200)) 1%float initial_last_touch_ms init
     = (1000%float, init, Some (1000%float, 200, 200)).
Proof.
  assert (Hmiss : handle_touch 200 200 init = (false, init))
    by (vm_compute; reflexivity).
  split; [exact Hmiss|].
  destruct (passed_touch_opens_window 200 200 1%float initial_last_touch_ms init)
    as (_ & Hsame & _); [vm_compute; reflexivity|].
  exact (Hsame Hmiss).
Defined.

(** ** C10: the focus timer *)

Lemma tick_focus_fires now last st :
  focus_active st = true ->
  PrimFloat.leb 60%float (PrimFloat.sub now last) = true ->
  tick_focus now last st
  = (now,
     if focus_session_mins st <=? focus_elapsed_mins st + 1
     then set_focus false (focus_elapsed_mins st + 1) "Session complete!" st
     else set_focus true (focus_elapsed_mins st + 1) (focus_message st) st).
Proof.
  intros Hactive Hdue. unfold tick_focus. rewrite Hactive, Hdue. cbn [negb].
  destruct (focus_session_mins st <=? focus_elapsed_mins st + 1); reflexivity.
Qed.

Lemma tick_focus_keeps_session_in_progress now last st :
  session_in_progress st -> session_in_progress (snd (tick_focus now last st)).
Proof.
  unfold session_in_progress, tick_focus. intros Hinv.
  destruct (focus_active st) eqn:Hactive; cbn [negb snd]; [|congruence].
  destruct (PrimFloat.leb 60 (PrimFloat.sub now last)); cbn [snd];
    [|rewrite Hactive; exact Hinv].
  destruct (Z.leb_spec (focus_session_mins st) (focus_elapsed_mins st + 1));
    cbn [snd set_focus focus_active focus_elapsed_mins focus_session_mins];
    [discriminate | intros _; lia].
Qed.

(** [handle_touch] never starts a session, never changes its length, and
    touches the elapsed counter only to reset it while ending the
    session. *)
Lemma handle_touch_focus_fields x y st :
  let st' := snd (handle_touch x y st) in
  focus_session_mins st' = focus_session_mins st
  /\ (focus_active st' = false
      \/ (focus_active st' = focus_active st
          /\ focus_elapsed_mins st' = focus_elapsed_mins st)).
Proof.
  unfold handle_touch.
  destruct (String.eqb (screen st) SCREEN_DASHBOARD).
  { destruct (if_true _); cbn; auto. }
  destruct (String.eqb (screen st) SCREEN_APPS).
  { destruct (if_true (hit_test x y (apps_rects st))); [cbn; auto|].
    destruct (if_true _); cbn; auto. }
  destruct (if_true _).
  - destruct (String.eqb (screen st) SCREEN_FOCUS), (focus_active st) eqn:Ha,
      (String.eqb (screen st) SCREEN_SYSMON); cbn; auto.
  - destruct (String.eqb (screen st) SCREEN_SYSMON), (clean_done st); cbn; auto.
Qed.

Lemma act_keeps_session_in_progress a s :
  session_in_progress (snd s) -> session_in_progress (snd (act a s)).
Proof.
  destruct a as [now | x y]; cbn [act].
  - apply tick_focus_keeps_session_in_progress.
  - cbn [snd]. unfold session_in_progress. intros Hinv.
    destruct (handle_touch_focus_fields x y (snd s)) as (Hlen & [Hoff | [Hact Hel]]).
    + congruence.
    + rewrite Hlen, Hact, Hel. exact Hinv.
Qed.

Lemma act_all_keeps_session_in_progress acts :
  forall s, session_in_progress (snd s) -> session_in_progress (snd (act_all acts s)).
Proof.
  unfold act_all.
  induction acts as [|a acts IH]; intros s Hinv; cbn [fold_left].
  - exact Hinv.
  - apply IH, act_keeps_session_in_progress, Hinv.
Qed.

Lemma tick_focus_all_idle nows :
  forall last st,
    focus_active st = false -> tick_focus_all nows last st = (last, st).
Proof.
  induction nows as [|now rest IH]; intros last st Hoff; [reflexivity|].
  cbn [tick_focus_all]. unfold tick_focus. rewrite Hoff. cbn [negb].
  apply IH, Hoff.
Qed.

(** A running session with [n >= 1] minutes left is over after [n]
    ticks that each come a minute after the last. *)
Lemma session_runs_out nows :
  forall last st,
    focus_active st = true ->
    nows <> [] ->
    focus_session_mins st - focus_elapsed_mins st <= Z.of_nat (length nows) ->
    a_minute_apart last nows ->
    let st' := snd (tick_focus_all nows last st) in
    focus_active st' = false /\ focus_message st' = "Session complete!".
Proof.
  induction nows as [|now rest IH]; intros last st Hactive Hne Hleft Hchain;
    [contradiction|].
  destruct Hchain as [Hdue Hchain].
  cbn [tick_focus_all]. rewrite (tick_focus_fires now last st Hactive Hdue).
  destruct (Z.leb_spec (focus_session_mins st) (focus_elapsed_mins st + 1)) as [Hend|Hmore].
  - rewrite tick_focus_all_idle by reflexivity. cbn. auto.
  - destruct rest as [|now' rest']; [cbn [length] in Hleft; lia|].
    apply IH; [reflexivity | discriminate | | exact Hchain].
    cbn [set_focus focus_session_mins focus_elapsed_mins].
    cbn [length] in Hleft |- *. lia.
Qed.

(** C10.  While a session is active, a call of [tick_focus] that comes
    at least 60 s after the last advance adds exactly one to
    [focus_elapsed_mins] and records the time of the advance; if the new
    count has reached [focus_session_mins] it clears [focus_active] and
    sets the message to "Session complete!", otherwise the session stays
    active; any other call changes nothing.  Hence, for a session of at
    least one minute that starts with the counter at 0, an active session
    has [focus_elapsed_mins < focus_session_mins] after every call (and
    after every touch in between); and a running session ends by itself
    once as many minute ticks have come as it had minutes left. *)
Theorem tick_focus_counts_and_completes (st : AppState) (last : float) :
  1 <= focus_session_mins st ->
  (forall now,
      focus_active st = true ->
      PrimFloat.leb 60%float (PrimFloat.sub now last) = true ->
      exists st',
        tick_focus now last st = (now, st')
        /\ focus_elapsed_mins st' = focus_elapsed_mins st + 1
        /\ focus_session_mins st' = focus_session_mins st
        /\ (focus_session_mins st <= focus_elapsed_mins st + 1 ->
            focus_active st' = false /\ focus_message st' = "Session complete!")
        /\ (focus_elapsed_mins st + 1 < focus_session_mins st ->
            focus_active st' = true /\ focus_message st' = focus_message st))
  /\ (forall now,
        focus_active st = false
        \/ PrimFloat.leb 60%float (PrimFloat.sub now last) = false ->
        tick_focus now last st = (last, st))
  /\ (forall now,
        session_in_progress st ->
        session_in_progress (snd (tick_focus now last st)))
  /\ (focus_elapsed_mins st = 0 ->
      forall acts, session_in_progress (snd (act_all acts (last, st))))
  /\ (forall nows,
        focus_active st = true ->
        focus_elapsed_mins st < focus_session_mins st ->
        length nows = Z.to_nat (focus_session_mins st - focus_elapsed_mins st) ->
        a_minute_apart last nows ->
        focus_active (snd (tick_focus_all nows last st)) = false
        /\ focus_message (snd (tick_focus_all nows last st)) = "Session complete!").
Proof.
  intros Hlen. split; [|split; [|split; [|split]]].
  - intros now Hactive Hdue.
    rewrite (tick_focus_fires now last st Hactive Hdue).
    eexists. split; [reflexivity|].
    destruct (Z.leb_spec (focus_session_mins st) (focus_elapsed_mins st + 1));
      cbn [set_focus focus_elapsed_mins focus_session_mins focus_active focus_message];
      repeat split; intros; try reflexivity; lia.
  - intros now [Hoff | Hearly]; unfold tick_focus.
    + rewrite Hoff. reflexivity.
    + rewrite Hearly. destruct (focus_active st); reflexivity.
  - intros now. apply tick_focus_keeps_session_in_progress.
  - intros Hzero acts. apply act_all_keeps_session_in_progress.
    cbn [snd]. unfold session_in_progress. intros _. lia.
  - intros nows Hactive Hleft Hcount Hchain.
    apply session_runs_out; try assumption.
    + intros ->. cbn [length] in Hcount. lia.
    + lia.
Qed.

(** A two-minute session: after the first minute it is still running
    with one minute counted; after the second it has ended. *)
Lemma tick_focus_counts_and_completes_witness :
  let st := {| screen := SCREEN_FOCUS; apps_rects := []; clean_done := false;
               focus_session_mins := 2; focus_elapsed_mins := 0;
               focus_active := true; focus_message := "" |} in
  tick_focus 60%float 0%float st
  = (60%float,
     {| screen := SCREEN_FOCUS; apps_rects := []; clean_done := false;
        focus_session_mins := 2; focus_elapsed_mins := 1;
        focus_active := true; focus_message := "" |})
  /\ focus_active (snd (tick_focus_all [60%float; 120%float] 0%float st)) = false
  /\ focus_message (snd (tick_focus_all [60%float; 120%float] 0%float st))
     = "Session complete!".
Proof.
  intros st.
  destruct (tick_focus_counts_and_completes st 0%float)
    as (_ & _ & _ & _ & Hends); [cbn; lia|].
  split; [vm_compute; reflexivity|].
  apply Hends.
  - reflexivity.
  - cbn. lia.
  - reflexivity.
  - cbn. split; [vm_compute; reflexivity|]. split; [vm_compute; reflexivity|]. exact I.
Defined.

(* ================================================================== *)
(** * Further properties of the drivers, the router and the loop *)
(* ================================================================== *)

Import TouchIO UiLayout Loop Discipline.

(** ** Chunked writes *)

Lemma writes_app t1 t2 : writes (t1 ++ t2) = writes t1 ++ writes t2.
Proof. unfold writes. apply flat_map_app. Qed.

Lemma writes_of_writes (cks : list (list Z)) : writes (map WriteBytes2 cks) = cks.
Proof.
  induction cks as [|c cks IH]; [reflexivity|].
  cbn. f_equal. exact IH.
Qed.

(** X1.  The [writebytes2] calls of one [_write_bytes] carry the data in
    slices of at most 4096 bytes: there are ceil(len / 4096) of them,
    none is empty, all but the last are full, the [k]-th is the data from
    byte [4096 k] on, and together they are the data, in order; they all
    come between the one fall and the one rise of the chip-select. *)
Theorem write_bytes_chunks (cs dc : Z) (mode : bool) (data : list Z) (speed : Z) :
  let ws := writes (_write_bytes cs dc mode data speed) in
  concat ws = data
  /\ length ws = ((length data + 4095) / 4096)%nat
  /\ (forall k c,
        ws !! k = Some c ->
        c = take 4096 (drop (k * 4096) data)
        /\ (0 < length c <= 4096)%nat
        /\ ((S k < length ws)%nat -> length c = 4096%nat))
  /\ _write_bytes cs dc mode data speed
     = [LockAcquire; SetSpeed speed;
        GpioOutput dc (if mode then HIGH else LOW); GpioOutput cs LOW]
       ++ map WriteBytes2 ws
       ++ [GpioOutput cs HIGH; LockRelease].
Proof.
  assert (Hws : writes (_write_bytes cs dc mode data speed) = chunks data).
  { unfold _write_bytes. rewrite !writes_app, writes_of_writes.
    cbn. apply app_nil_r. }
  cbv zeta. rewrite Hws.
  split; [apply concat_chunks|].
  assert (Hlen : length (chunks data) = ((length data + 4095) / 4096)%nat).
  { unfold chunks. rewrite length_map, length_seq. reflexivity. }
  split; [exact Hlen|]. split; [|reflexivity].
  intros k c Hk. rewrite Hlen.
  pose proof (Nat.div_mod_eq (length data + 4095) 4096) as Hdiv.
  pose proof (Nat.mod_upper_bound (length data + 4095) 4096) as Hmod.
  set (m := ((length data + 4095) / 4096)%nat) in *.
  assert (Hkm : (k < m)%nat).
  { apply lookup_lt_Some in Hk. rewrite Hlen in Hk. exact Hk. }
  unfold chunks in Hk. fold m in Hk.
  rewrite list_lookup_fmap, lookup_seq_lt in Hk by exact Hkm.
  cbn in Hk. injection Hk as <-.
  split; [reflexivity|].
  rewrite length_take, length_drop. lia.
Qed.

(** Ten thousand bytes go out as 4096 + 4096 + 1808. *)
Example write_bytes_three_slices :
  map length (writes (_write_bytes ST_CS ST_DC true (replicate 10000 0xFF) ST7735.SPD))
  = [4096; 4096; 1808]%nat.
Proof. vm_compute. reflexivity. Qed.

(** ** Which colours share a packed word *)

(** X2.  Two colours are packed to the same 16-bit word exactly when
    they agree on the top 5 bits of red, the top 6 of green and the top
    5 of blue: the packing loses the low 3/2/3 bits and nothing else. *)
Theorem rgb565_same_word (r g b r' g' b' : Z) :
  0 <= r < 256 -> 0 <= g < 256 -> 0 <= b < 256 ->
  0 <= r' < 256 -> 0 <= g' < 256 -> 0 <= b' < 256 ->
  rgb565 r g b = rgb565 r' g' b'
  <-> Z.shiftr r 3 = Z.shiftr r' 3
      /\ Z.shiftr g 2 = Z.shiftr g' 2
      /\ Z.shiftr b 3 = Z.shiftr b' 3.
Proof.
  intros Hr Hg Hb Hr' Hg' Hb'. split.
  - intros Heq. apply (f_equal decode565) in Heq.
    rewrite !rgb565_decode in Heq by assumption.
    injection Heq as -> -> ->. auto.
  - rewrite !Z.shiftr_div_pow2 by lia.
    change (2 ^ 3) with 8. change (2 ^ 2) with 4.
    intros (Hr8 & Hg4 & Hb8).
    rewrite !rgb565_fields by assumption. rewrite Hr8, Hg4, Hb8. reflexivity.
Qed.

Lemma rgb565_same_word_witness :
  rgb565 255 0 0 = rgb565 248 3 7.
Proof.
  apply (rgb565_same_word 255 0 0 248 3 7); try lia.
  vm_compute. repeat split.
Defined.

(** ** Frames of the wrong length *)

Lemma getitem_None {A} (l : list A) i :
  (length l <= i)%nat -> getitem l i = Raise IndexError.
Proof.
  intros Hi. unfold getitem. rewrite lookup_ge_None_2 by exact Hi. reflexivity.
Qed.

(** When the bytes run out inside the loop, it stops with [IndexError]. *)
Lemma pack_pixels_short raw n :
  forall k buf,
    Forall (fun v => 0 <= v < 256) raw ->
    (length buf = 2 * (k + n))%nat ->
    (length raw < 3 * (k + n))%nat ->
    (3 * k <= length raw)%nat ->
    pack_pixels raw (seq k n) buf = Raise IndexError.
Proof.
  induction n as [|n IH]; intros k buf Hbytes Hbuf Hshort Hk; [lia|].
  cbn [seq pack_pixels].
  destruct (decide (length raw <= k * 3)%nat) as [H0|H0].
  { rewrite (getitem_None raw (k * 3)) by exact H0. reflexivity. }
  destruct (lookup_lt_is_Some_2 raw (k * 3)) as [r Hr]; [lia|].
  rewrite (getitem_Some _ _ _ Hr). cbn [bind].
  destruct (decide (length raw <= k * 3 + 1)%nat) as [H1|H1].
  { rewrite (getitem_None raw (k * 3 + 1)) by exact H1. reflexivity. }
  destruct (lookup_lt_is_Some_2 raw (k * 3 + 1)) as [g Hg]; [lia|].
  rewrite (getitem_Some _ _ _ Hg). cbn [bind].
  destruct (decide (length raw <= k * 3 + 2)%nat) as [H2|H2].
  { rewrite (getitem_None raw (k * 3 + 2)) by exact H2. reflexivity. }
  destruct (lookup_lt_is_Some_2 raw (k * 3 + 2)) as [b Hb]; [lia|].
  rewrite (getitem_Some _ _ _ Hb). cbn [bind].
  assert (Br : 0 <= r < 256) by (eapply (proj1 (Forall_lookup _ _) Hbytes); eauto).
  assert (Bg : 0 <= g < 256) by (eapply (proj1 (Forall_lookup _ _) Hbytes); eauto).
  assert (Bb : 0 <= b < 256) by (eapply (proj1 (Forall_lookup _ _) Hbytes); eauto).
  destruct (rgb565_bytes r g b Br Bg Bb) as (Hhi & Hlo & _).
  rewrite bytearray_setitem_ok by (assumption || lia). cbn [bind].
  rewrite bytearray_setitem_ok by (rewrite ?length_insert; assumption || lia).
  cbn [bind].
  apply IH; [assumption | rewrite !length_insert; lia | lia | lia].
Qed.

(** The loop reads the first [3 (k + n)] bytes only. *)
Lemma pack_pixels_prefix raw raw' n :
  forall k buf,
    (forall j, (j < 3 * (k + n))%nat -> raw !! j = raw' !! j) ->
    pack_pixels raw (seq k n) buf = pack_pixels raw' (seq k n) buf.
Proof.
  induction n as [|n IH]; intros k buf Hsame; [reflexivity|].
  cbn [seq pack_pixels]. unfold getitem.
  rewrite <- !Hsame by lia.
  destruct (raw !! (k * 3)%nat) as [r|]; [|reflexivity].
  destruct (raw !! (k * 3 + 1)%nat) as [g|]; [|reflexivity].
  destruct (raw !! (k * 3 + 2)%nat) as [b|]; [|reflexivity].
  cbn [bind].
  destruct (bytearray_setitem buf (k * 2) _) as [buf1|e]; [|reflexivity].
  cbn [bind].
  destruct (bytearray_setitem buf1 (k * 2 + 1) _) as [buf2|e]; [|reflexivity].
  cbn [bind].
  apply IH. intros j Hj. apply Hsame. lia.
Qed.

(** X3.  A frame with fewer than [3 W H] bytes makes [image] stop with
    [IndexError] before anything is sent to the panel; bytes beyond the
    first [3 W H] are never read, so a longer frame is pushed exactly as
    its first [3 W H] bytes would be. *)
Theorem image_frame_length (p : panel) (raw : list Z) :
  0 <= W p * H p ->
  forallb is_byte raw = true ->
  ((length raw < Z.to_nat (W p * H p * 3))%nat ->
   image p raw = Raise IndexError)
  /\ ((Z.to_nat (W p * H p * 3) <= length raw)%nat ->
      image p raw = image p (take (Z.to_nat (W p * H p * 3)) raw)).
Proof.
  intros Hsize Hbytes.
  assert (Hall : Forall (fun v => 0 <= v < 256) raw).
  { apply Forall_forall. intros v Hv. apply is_byte_range.
    rewrite forallb_forall in Hbytes. apply Hbytes, list_elem_of_In, Hv. }
  set (n := Z.to_nat (W p * H p)).
  assert (Hn3 : Z.to_nat (W p * H p * 3) = (3 * n)%nat) by (unfold n; lia).
  assert (Hn2 : Z.to_nat (W p * H p * 2) = (2 * n)%nat) by (unfold n; lia).
  rewrite Hn3. unfold image, bytearray.
  destruct (Z.ltb_spec (W p * H p * 2) 0) as [Hneg|_]; [lia|]. cbn [bind].
  fold n. rewrite Hn2. split.
  - intros Hshort.
    rewrite (pack_pixels_short raw n 0%nat);
      [reflexivity | assumption | rewrite length_replicate; lia | lia | lia].
  - intros Hlong.
    rewrite (pack_pixels_prefix raw (take (3 * n) raw) n 0%nat); [reflexivity|].
    intros j Hj. symmetry. apply lookup_take_lt. lia.
Qed.

(** A 2x1 panel given a single pixel, and given three. *)
Lemma image_frame_length_witness :
  let p := {| W := 2; H := 1; SPD := ST7735.SPD; CS := ST_CS; DC := ST_DC;
              _window := ST7735._window |} in
  image p [255; 0; 0] = Raise IndexError
  /\ image p [255; 0; 0;  0; 255; 0;  0; 0; 255] = image p [255; 0; 0;  0; 255; 0].
Proof.
  intros p. split.
  - destruct (image_frame_length p [255; 0; 0]) as [Hshort _];
      [subst p; cbn; lia | reflexivity |].
    apply Hshort. subst p. vm_compute. lia.
  - destruct (image_frame_length p [255; 0; 0;  0; 255; 0;  0; 0; 255])
      as [_ Hlong]; [subst p; cbn; lia | reflexivity |].
    apply Hlong. subst p. vm_compute. lia.
Defined.

(** ** Bus discipline of a frame push *)

(** A disciplined run followed by a disciplined run is disciplined. *)
Lemma disciplined_from_app cs dc t1 t2 :
  forall locked selected,
    disciplined_from cs dc locked selected t1 = true ->
    disciplined_from cs dc false false t2 = true ->
    disciplined_from cs dc locked selected (t1 ++ t2) = true.
Proof.
  induction t1 as [|e t1 IH]; intros locked selected H1 H2.
  - cbn in H1. apply andb_true_iff in H1. destruct H1 as [Hl Hs].
    apply negb_true_iff in Hl, Hs. subst. exact H2.
  - cbn [app disciplined_from] in *.
    destruct e as [| | hz | pin level | c].
    + apply andb_true_iff in H1. destruct H1 as [-> H1]. cbn. auto.
    + apply andb_true_iff in H1. destruct H1 as [-> H1]. cbn. auto.
    + apply andb_true_iff in H1. destruct H1 as [-> H1]. cbn. auto.
    + destruct (pin =? cs).
      * apply andb_true_iff in H1. destruct H1 as [-> H1]. cbn. auto.
      * destruct (pin =? dc); [|discriminate].
        apply andb_true_iff in H1. destruct H1 as [-> H1]. cbn. auto.
    + apply andb_true_iff in H1. destruct H1 as [-> H1]. cbn. auto.
Qed.

Lemma disciplined_app cs dc t1 t2 :
  disciplined cs dc t1 = true -> disciplined cs dc t2 = true ->
  disciplined cs dc (t1 ++ t2) = true.
Proof. apply disciplined_from_app. Qed.

Lemma write_bytes_disciplined cs dc mode data speed :
  cs <> dc -> disciplined cs dc (_write_bytes cs dc mode data speed) = true.
Proof.
  intros Hne. unfold disciplined, _write_bytes.
  cbn [app disciplined_from negb andb].
  destruct (Z.eqb_spec dc cs) as [Heq|_]; [congruence|].
  rewrite !Z.eqb_refl. cbn [negb andb LOW].
  induction (chunks data) as [|c cks IH].
  - cbn. rewrite Z.eqb_refl. reflexivity.
  - cbn [map app disciplined_from andb]. exact IH.
Qed.

Lemma cmd_dat_disciplined cs dc cmd data speed :
  cs <> dc -> disciplined cs dc (_cmd_dat cs dc cmd data speed) = true.
Proof.
  intros Hne. unfold _cmd_dat, _cmd, _dat.
  apply disciplined_app; [apply write_bytes_disciplined, Hne|].
  destruct data as [[|b bs]|]; try reflexivity.
  apply write_bytes_disciplined, Hne.
Qed.

(** X4.  A frame push by a display of either class keeps the bus
    discipline on that display's own pins: every event happens with the
    lock held, the speed and the data/command line are set only while
    the display is deselected, bytes go out only while its chip-select is
    low, no pin of another device is driven, and the push ends with the
    display deselected and the lock free. *)
Theorem image_bus_discipline (p : panel) (raw : list Z) (tr : trace) :
  of_either_class p ->
  image p raw = Ok tr ->
  disciplined (CS p) (DC p) tr = true.
Proof.
  intros Hclass Himg. unfold image in Himg.
  apply bind_Ok in Himg. destruct Himg as (buf0 & _ & Himg).
  apply bind_Ok in Himg. destruct Himg as (buf & _ & Himg).
  injection Himg as <-.
  assert (Hne : CS p <> DC p).
  { destruct Hclass as [(-> & -> & _) | (-> & -> & _)]; vm_compute; discriminate. }
  apply disciplined_app; [|apply write_bytes_disciplined, Hne].
  destruct Hclass as [(Hcs & Hdc & ->) | (Hcs & Hdc & ->)];
    rewrite Hcs, Hdc in *.
  - unfold ILI9341._window, ILI9341._c.
    apply disciplined_app; [|apply disciplined_app];
      apply cmd_dat_disciplined, Hne.
  - unfold ST7735._window, ST7735._c.
    apply disciplined_app; [|apply disciplined_app];
      apply cmd_dat_disciplined, Hne.
Qed.

Lemma image_bus_discipline_witness :
  disciplined ST_CS ST_DC
    (ST7735._window 0 0 3 0
     ++ _dat ST_CS ST_DC [0xF8; 0x00; 0x07; 0xE0; 0x00; 0x1F; 0xFF; 0xFF]
             ST7735.SPD) = true.
Proof.
  apply (image_bus_discipline
           {| W := 4; H := 1; SPD := ST7735.SPD; CS := ST_CS; DC := ST_DC;
              _window := ST7735._window |}
           [255; 0; 0;  0; 255; 0;  0; 0; 255;  255; 255; 255]).
  - right. repeat split.
  - vm_compute. reflexivity.
Defined.

(** ** The window commands *)

Lemma bytes_written_cmd_dat cs dc cmd data speed :
  bytes_written (_cmd_dat cs dc cmd data speed)
  = cmd :: match data with Some l => l | None => [] end.
Proof.
  unfold _cmd_dat, _cmd, _dat.
  rewrite bytes_written_app, bytes_written_write_bytes.
  destruct data as [[|b bs]|]; cbn [app]; try reflexivity.
  rewrite bytes_written_write_bytes. reflexivity.
Qed.

Lemma byte_split_16 x :
  0 <= Z.shiftr x 8 < 256 /\ 0 <= Z.land x 0xFF < 256 <-> 0 <= x < 65536.
Proof.
  change 0xFF with (Z.ones 8).
  rewrite Z.land_ones, Z.shiftr_div_pow2 by lia.
  change (2 ^ 8) with 256. split; intros H; zdiv.
Qed.

(** X5.  [ILI9341._window] sends column-set, row-set and memory-write,
    each range as two big-endian 16-bit values: the receiver gets back
    each coordinate as [hi * 256 + lo]; what is sent consists of bytes
    exactly when the four coordinates are in [0, 65536). *)
Theorem ili9341_window_bytes (x0 y0 x1 y1 : Z) :
  bytes_written (ILI9341._window x0 y0 x1 y1)
  = [0x2A; Z.shiftr x0 8; Z.land x0 0xFF; Z.shiftr x1 8; Z.land x1 0xFF;
     0x2B; Z.shiftr y0 8; Z.land y0 0xFF; Z.shiftr y1 8; Z.land y1 0xFF;
     0x2C]
  /\ (forallb is_byte (bytes_written (ILI9341._window x0 y0 x1 y1)) = true
      <-> 0 <= x0 < 65536 /\ 0 <= x1 < 65536
          /\ 0 <= y0 < 65536 /\ 0 <= y1 < 65536)
  /\ (forall x, Z.shiftr x 8 * 256 + Z.land x 0xFF = x).
Proof.
  assert (Hbytes : bytes_written (ILI9341._window x0 y0 x1 y1)
    = [0x2A; Z.shiftr x0 8; Z.land x0 0xFF; Z.shiftr x1 8; Z.land x1 0xFF;
       0x2B; Z.shiftr y0 8; Z.land y0 0xFF; Z.shiftr y1 8; Z.land y1 0xFF;
       0x2C]).
  { unfold ILI9341._window, ILI9341._c.
    rewrite !bytes_written_app, !bytes_written_cmd_dat. reflexivity. }
  split; [exact Hbytes|]. split.
  - rewrite Hbytes. cbn [forallb].
    change (is_byte 0x2A) with true. change (is_byte 0x2B) with true.
    change (is_byte 0x2C) with true. cbn [andb].
    rewrite !andb_true_iff, !is_byte_range.
    rewrite <- !byte_split_16. tauto.
  - intros x. change 0xFF with (Z.ones 8).
    rewrite Z.land_ones, Z.shiftr_div_pow2 by lia.
    change (2 ^ 8) with 256. zdiv.
Qed.

(** X6.  [ST7735._window] sends each coordinate as one byte behind a
    zero high byte: what is sent consists of bytes exactly when the four
    coordinates are in [0, 256), as they are for the 160x128 panel. *)
Theorem st7735_window_bytes (x0 y0 x1 y1 : Z) :
  bytes_written (ST7735._window x0 y0 x1 y1)
  = [0x2A; 0x00; x0; 0x00; x1;  0x2B; 0x00; y0; 0x00; y1;  0x2C]
  /\ (forallb is_byte (bytes_written (ST7735._window x0 y0 x1 y1)) = true
      <-> 0 <= x0 < 256 /\ 0 <= x1 < 256 /\ 0 <= y0 < 256 /\ 0 <= y1 < 256)
  /\ forallb is_byte
       (bytes_written (ST7735._window 0 0 (ST7735.W - 1) (ST7735.H - 1))) = true.
Proof.
  assert (Hbytes : bytes_written (ST7735._window x0 y0 x1 y1)
    = [0x2A; 0x00; x0; 0x00; x1;  0x2B; 0x00; y0; 0x00; y1;  0x2C]).
  { unfold ST7735._window, ST7735._c.
    rewrite !bytes_written_app, !bytes_written_cmd_dat. reflexivity. }
  split; [exact Hbytes|]. split.
  - rewrite Hbytes. cbn [forallb].
    change (is_byte 0x2A) with true. change (is_byte 0x2B) with true.
    change (is_byte 0x2C) with true. change (is_byte 0x00) with true.
    cbn [andb].
    rewrite !andb_true_iff, !is_byte_range. tauto.
  - unfold ST7735._window, ST7735._c.
    rewrite !bytes_written_app, !bytes_written_cmd_dat. reflexivity.
Qed.

(** ** The touch controller on the bus *)

(** X7.  [read_touch] with its bus traffic returns what [read_touch]
    returns.  When the interrupt line says "no contact" it only reads
    that pin: nothing is driven on the bus.  Otherwise it makes exactly
    sixteen three-byte transfers, eight with the X command and then
    eight with the Y command.  Every one of them is made with the lock
    held, at 1 MHz (the speed is set to 1 MHz each time the lock is taken,
    before the first transfer), in a chip-select bracket of its own on
    the touch pin; the lock is held from before the first to after the
    eighth transfer of each channel and released only then; no display
    pin is driven and no display data written. *)
Theorem read_touch_bus_traffic (cfg : config) (irq : bool) (dev : device) :
  snd (read_touch_io cfg irq dev) = read_touch cfg irq dev
  /\ ((if TOUCH_IRQ_ACTIVE_HIGH cfg then negb irq else irq) = true ->
      fst (read_touch_io cfg irq dev) = [GpioInput T_IRQ irq]
      /\ drives_bus (fst (read_touch_io cfg irq dev)) = false
      /\ read_touch cfg irq dev = Ok None)
  /\ ((if TOUCH_IRQ_ACTIVE_HIGH cfg then negb irq else irq) = false ->
      transfers (fst (read_touch_io cfg irq dev))
      = replicate 8 [TOUCH_X_CMD; 0; 0] ++ replicate 8 [TOUCH_Y_CMD; 0; 0]
      /\ touch_disciplined (fst (read_touch_io cfg irq dev)) = true
      /\ read_touch cfg irq dev
         = (let* pt := calibrate cfg (_raw_touch dev) in Ok (Some pt))).
Proof.
  unfold read_touch_io, read_touch, _raw_touch_io, ch_io, _raw_touch, ch.
  destruct (TOUCH_IRQ_ACTIVE_HIGH cfg), irq; cbn [negb fst snd];
    (split; [reflexivity|]); split; intros H; try discriminate H.
  all: try solve [repeat split].
  all: split; [vm_compute; reflexivity|];
       split; [vm_compute; reflexivity | reflexivity].
Qed.

(** ** The range of the raw pair *)

Lemma ch_below dev cmd (bound : Z) :
  (forall k, 0 <= sample_of (dev cmd k) < bound) -> 0 <= ch dev cmd < bound.
Proof.
  intros Hs. unfold ch.
  set (vals := map (fun k => sample_of (dev cmd k)) (seq 0 8)).
  destruct (median_mean_between vals eq_refl)
    as (lo & hi & Hlo & Hhi & _ & Hbetween).
  assert (Hvals : forall v, v ∈ vals -> 0 <= v < bound).
  { intros v Hv. apply list_elem_of_In, in_map_iff in Hv.
    destruct Hv as (k & <- & _). apply Hs. }
  apply Hvals in Hlo. apply Hvals in Hhi. lia.
Qed.

Lemma sample_of_value r0 r1 r2 :
  0 <= r2 < 256 -> sample_of (r0, r1, r2) = (r1 * 256 + r2) / 8.
Proof.
  intros H2. unfold sample_of.
  rewrite Z.shiftl_mul_pow2, Z.shiftr_div_pow2 by lia.
  rewrite lor_disjoint by lia. reflexivity.
Qed.

(** X8.  With byte replies, each raw channel value returned by
    [_raw_touch] is a 13-bit number, [0 <= v < 8192]: a sample is
    [(r1 * 256 + r2) // 8] and the filter stays within its samples.  It
    is a 12-bit number when the controller keeps the top bit of the
    first data byte clear. *)
Theorem raw_touch_range (dev : device) :
  byte_replies dev ->
  (0 <= fst (_raw_touch dev) < 8192 /\ 0 <= snd (_raw_touch dev) < 8192)
  /\ (forall r0 r1 r2,
        0 <= r1 < 256 -> 0 <= r2 < 256 ->
        sample_of (r0, r1, r2) = (r1 * 256 + r2) / 8)
  /\ ((forall cmd k, snd (fst (dev cmd k)) < 128) ->
      0 <= fst (_raw_touch dev) < 4096 /\ 0 <= snd (_raw_touch dev) < 4096).
Proof.
  intros Hdev. split; [|split].
  - unfold _raw_touch. cbn [fst snd]. split; apply ch_range, Hdev.
  - intros r0 r1 r2 _ H2. apply sample_of_value, H2.
  - intros Htop. unfold _raw_touch. cbn [fst snd].
    split; apply ch_below; intros k.
    + specialize (Hdev TOUCH_X_CMD k). specialize (Htop TOUCH_X_CMD k).
      destruct (dev TOUCH_X_CMD k) as [[r0 r1] r2]. cbn [fst snd] in Htop.
      rewrite sample_of_value by tauto. zdiv.
    + specialize (Hdev TOUCH_Y_CMD k). specialize (Htop TOUCH_Y_CMD k).
      destruct (dev TOUCH_Y_CMD k) as [[r0 r1] r2]. cbn [fst snd] in Htop.
      rewrite sample_of_value by tauto. zdiv.
Qed.

Lemma raw_touch_range_witness :
  0 <= fst (_raw_touch (steady (0, 0x6D, 0x20))) < 4096
  /\ 0 <= snd (_raw_touch (steady (0, 0x6D, 0x20))) < 4096.
Proof.
  assert (Hdev : byte_replies (steady (0, 0x6D, 0x20))).
  { intros cmd k. unfold steady. lia. }
  destruct (raw_touch_range (steady (0, 0x6D, 0x20)) Hdev) as (_ & _ & H12).
  apply H12. intros cmd k. unfold steady. cbn. lia.
Defined.

(** ** The configured calibration, exactly *)

(** X9.  Under the configured profile, for every raw pair the
    controller can deliver, [read_touch]'s floating-point scaling gives
    the exact integer result: column
    [clamp(trunc((rx - 445) * 320 / 3047))] and row
    [clamp(trunc((ry - 606) * 240 / 3009))], clamped to the screen.  The
    mapping is monotone: a larger raw value never gives a smaller
    coordinate. *)
Theorem calibrate_configured_exact (rx ry : Z) :
  0 <= rx < 8192 -> 0 <= ry < 8192 ->
  calibrate configured (rx, ry)
  = Ok (clamp 319 (Z.quot ((rx - 445) * 320) 3047),
        clamp 239 (Z.quot ((ry - 606) * 240) 3009))
  /\ (forall rx' ry' x y x' y',
        0 <= rx' < 8192 -> 0 <= ry' < 8192 ->
        rx <= rx' -> ry <= ry' ->
        calibrate configured (rx, ry) = Ok (x, y) ->
        calibrate configured (rx', ry') = Ok (x', y') ->
        x <= x' /\ y <= y').
Proof.
  intros Hx Hy.
  assert (Hexact : forall a b, 0 <= a < 8192 -> 0 <= b < 8192 ->
            calibrate configured (a, b)
            = Ok (clamp 319 (Z.quot ((a - 445) * 320) 3047),
                  clamp 239 (Z.quot ((b - 606) * 240) 3009))).
  { intros a b Ha Hb. unfold calibrate.
    cbn [configured CAL_SWAP_XY CAL_X_MIN CAL_X_MAX CAL_Y_MIN CAL_Y_MAX
         SCREEN_W SCREEN_H CAL_FLIP_X CAL_FLIP_Y].
    rewrite (scale_x_configured a Ha), (scale_y_configured b Hb).
    reflexivity. }
  split; [apply Hexact; assumption|].
  intros rx' ry' x y x' y' Hx' Hy' Hlex Hley H1 H2.
  rewrite Hexact in H1, H2 by assumption.
  injection H1 as <- <-. injection H2 as <- <-.
  assert (Hqx : Z.quot ((rx - 445) * 320) 3047 <= Z.quot ((rx' - 445) * 320) 3047)
    by (apply Z.quot_le_mono; lia).
  assert (Hqy : Z.quot ((ry - 606) * 240) 3009 <= Z.quot ((ry' - 606) * 240) 3009)
    by (apply Z.quot_le_mono; lia).
  unfold clamp. lia.
Qed.

Lemma calibrate_configured_exact_witness :
  calibrate configured (2000, 2000) = Ok (163, 111).
Proof.
  destruct (calibrate_configured_exact 2000 2000) as [Hval _]; [lia | lia |].
  rewrite Hval. vm_compute. reflexivity.
Defined.

(** ** Looking a statistic up under several spellings *)


(** The deck statistics with the RAM under its alternative spelling. *)
Example safe_spellings :
  let d : gmap string Z := <["mem" := 31]> (<["cpu" := 38]> ∅) in
  _safe d ["ram"; "RAM"; "mem"] 0 = 31
  /\ _safe d ["cpu"; "CPU"] 0 = 38
  /\ _safe d ["fan"; "FAN"] 0 = 0.
Proof. vm_compute. repeat split. Qed.

(** ** Routing, screen by screen *)

Lemma inside_false {A} (tx ty x0 y0 x1 y1 : Z) (p : A) :
  inside tx ty (x0, y0, x1, y1, p) = false
  <-> ~ (x0 <= tx <= x1 /\ y0 <= ty <= y1).
Proof.
  rewrite <- (inside_bounds tx ty x0 y0 x1 y1 p). symmetry.
  apply not_true_iff_false.
Qed.

(** Settles [inside x y r] from the arithmetic facts at hand. *)
Ltac settle_inside x0 y0 x1 y1 p :=
  match goal with
  | |- context [inside ?x ?y (x0, y0, x1, y1, p)] =>
      first
        [ rewrite (proj2 (inside_bounds x y x0 y0 x1 y1 p)) by lia
        | rewrite (proj2 (inside_false x y x0 y0 x1 y1 p)) by lia ]
  end.

(** X11.  On the dashboard a touch inside the chart region
    (14..96 x 82..162, edges included) opens the apps screen and is
    reported as a change; any other touch changes nothing and is
    reported as no change. *)
Theorem dashboard_touch (st : AppState) (x y : Z) :
  screen st = SCREEN_DASHBOARD ->
  (14 <= x <= 96 /\ 82 <= y <= 162 ->
   handle_touch x y st = (true, set_screen SCREEN_APPS st))
  /\ (~ (14 <= x <= 96 /\ 82 <= y <= 162) ->
      handle_touch x y st = (false, st)).
Proof.
  intros Hscreen. unfold handle_touch. rewrite Hscreen.
  change (String.eqb SCREEN_DASHBOARD SCREEN_DASHBOARD) with true.
  unfold DASHBOARD_PIE_REGION. cbn [hit_test].
  split; intros Hpt; settle_inside 14 82 96 162 SCREEN_APPS; reflexivity.
Qed.

Lemma dashboard_touch_witness :
  handle_touch 14 162 init = (true, set_screen SCREEN_APPS init)
  /\ handle_touch 13 162 init = (false, init).
Proof.
  split.
  - apply (dashboard_touch init 14 162); [reflexivity | lia].
  - apply (dashboard_touch init 13 162); [reflexivity | lia].
Defined.

Lemma render_apps_rects_value :
  render_apps_rects
  = [(6, 30, 157, 129, SCREEN_EMAILS); (163, 30, 314, 129, SCREEN_FOCUS);
     (6, 135, 157, 234, SCREEN_BRIEF); (163, 135, 314, 234, SCREEN_SYSMON)].
Proof. vm_compute. reflexivity. Qed.

(** X12.  On the apps screen, with the rectangles [render_apps]
    recorded: the four tiles are 152 x 100 pixel rectangles in a 2 x 2
    grid below the top bar, and a touch in one opens its screen (mails,
    focus, brief, system care); the tiles are tried before the back
    region, so the part of the back region that the "brief" tile covers
    (6..100 x 222..234) opens the brief screen, and only the rest of the
    back region returns to the dashboard; a touch anywhere else changes
    nothing. *)
Theorem apps_touch (st : AppState) (x y : Z) :
  screen st = SCREEN_APPS ->
  apps_rects st = render_apps_rects ->
  (6 <= x <= 157 /\ 30 <= y <= 129 ->
   handle_touch x y st = (true, set_screen SCREEN_EMAILS st))
  /\ (163 <= x <= 314 /\ 30 <= y <= 129 ->
      handle_touch x y st = (true, set_screen SCREEN_FOCUS st))
  /\ (6 <= x <= 157 /\ 135 <= y <= 234 ->
      handle_touch x y st = (true, set_screen SCREEN_BRIEF st))
  /\ (163 <= x <= 314 /\ 135 <= y <= 234 ->
      handle_touch x y st = (true, set_screen SCREEN_SYSMON st))
  /\ (0 <= x <= 100 /\ 222 <= y <= 240 /\ (x < 6 \/ 234 < y) ->
      handle_touch x y st = (true, set_screen SCREEN_DASHBOARD st))
  /\ (~ (6 <= x <= 157 \/ 163 <= x <= 314)
      \/ ~ (30 <= y <= 129 \/ 135 <= y <= 234) ->
      ~ (0 <= x <= 100 /\ 222 <= y <= 240) ->
      handle_touch x y st = (false, st)).
Proof.
  intros Hscreen Hrects. unfold handle_touch. rewrite Hscreen, Hrects.
  change (String.eqb SCREEN_APPS SCREEN_DASHBOARD) with false.
  change (String.eqb SCREEN_APPS SCREEN_APPS) with true.
  rewrite render_apps_rects_value. unfold BACK_REGION.
  change (ILI_H - BOT_H) with 222. change ILI_H with 240.
  cbn [hit_test].
  repeat split; intros; repeat
    first [ settle_inside 6 30 157 129 SCREEN_EMAILS
          | settle_inside 163 30 314 129 SCREEN_FOCUS
          | settle_inside 6 135 157 234 SCREEN_BRIEF
          | settle_inside 163 135 314 234 SCREEN_SYSMON
          | settle_inside 0 222 100 240 SCREEN_DASHBOARD ];
    reflexivity.
Qed.

Lemma apps_touch_witness :
  let st := set_apps_rects render_apps_rects (set_screen SCREEN_APPS init) in
  handle_touch 50 230 st = (true, set_screen SCREEN_BRIEF st)
  /\ handle_touch 50 238 st = (true, set_screen SCREEN_DASHBOARD st).
Proof.
  intros st. split.
  - apply (apps_touch st 50 230); [reflexivity | reflexivity | lia].
  - apply (apps_touch st 50 238); [reflexivity | reflexivity | lia].
Defined.

(** On every screen but the dashboard and the apps grid, [handle_touch]
    is decided by the back region alone. *)
Lemma handle_touch_sub_screen (st : AppState) (x y : Z) :
  String.eqb (screen st) SCREEN_DASHBOARD = false ->
  String.eqb (screen st) SCREEN_APPS = false ->
  (0 <= x <= 100 /\ 222 <= y <= 240 ->
   handle_touch x y st
   = (true,
      set_screen SCREEN_DASHBOARD
        (let st1 := if String.eqb (screen st) SCREEN_FOCUS && focus_active st
                    then set_focus false 0 "Session ended." st else st in
         if String.eqb (screen st) SCREEN_SYSMON
         then set_clean_done false st1 else st1)))
  /\ (~ (0 <= x <= 100 /\ 222 <= y <= 240) ->
      handle_touch x y st
      = if String.eqb (screen st) SCREEN_SYSMON && negb (clean_done st)
        then (true, set_clean_done true st) else (false, st)).
Proof.
  intros Hd Ha. unfold handle_touch. rewrite Hd, Ha.
  unfold BACK_REGION.
  change (ILI_H - BOT_H) with 222. change ILI_H with 240.
  cbn [hit_test].
  split; intros Hpt; settle_inside 0 222 100 240 SCREEN_DASHBOARD; reflexivity.
Qed.

(** X13.  On the system-care screen: a touch in the back region
    (0..100 x 222..240) returns to the dashboard and clears the "cleaned"
    flag; a touch anywhere else sets the flag once, reported as a
    change, and from then on changes nothing. *)
Theorem sysmon_touch (st : AppState) (x y : Z) :
  screen st = SCREEN_SYSMON ->
  (0 <= x <= 100 /\ 222 <= y <= 240 ->
   handle_touch x y st
   = (true, set_screen SCREEN_DASHBOARD (set_clean_done false st)))
  /\ (~ (0 <= x <= 100 /\ 222 <= y <= 240) ->
      clean_done st = false ->
      handle_touch x y st = (true, set_clean_done true st))
  /\ (~ (0 <= x <= 100 /\ 222 <= y <= 240) ->
      clean_done st = true ->
      handle_touch x y st = (false, st)).
Proof.
  intros Hscreen.
  destruct (handle_touch_sub_screen st x y) as [Hback Hother];
    [rewrite Hscreen; reflexivity | rewrite Hscreen; reflexivity |].
  rewrite Hscreen in Hback, Hother.
  change (String.eqb SCREEN_SYSMON SCREEN_FOCUS) with false in Hback.
  change (String.eqb SCREEN_SYSMON SCREEN_SYSMON) with true in Hback, Hother.
  cbn [andb] in Hback, Hother.
  split; [exact Hback|]. split; intros Hpt Hclean;
    rewrite (Hother Hpt), Hclean; reflexivity.
Qed.

Lemma sysmon_touch_witness :
  let st := set_screen SCREEN_SYSMON init in
  handle_touch 200 100 st = (true, set_clean_done true st)
  /\ handle_touch 200 100 (set_clean_done true st) = (false, set_clean_done true st)
  /\ handle_touch 10 230 (set_clean_done true st)
     = (true, set_screen SCREEN_DASHBOARD
                (set_clean_done false (set_clean_done true st))).
Proof.
  intros st. split; [|split].
  - destruct (sysmon_touch st 200 100) as (_ & Hfirst & _); [reflexivity|].
    apply Hfirst; [lia | reflexivity].
  - destruct (sysmon_touch (set_clean_done true st) 200 100) as (_ & _ & Hagain);
      [reflexivity|].
    apply Hagain; [lia | reflexivity].
  - destruct (sysmon_touch (set_clean_done true st) 10 230) as (Hback & _);
      [reflexivity|].
    apply Hback. lia.
Defined.

(** X14.  On the brief and mail screens, and on the focus screen while no
    session runs, a touch in the back region returns to the dashboard
    and changes nothing else; any other touch changes nothing at all. *)
Theorem plain_screen_touch (st : AppState) (x y : Z) :
  screen st = SCREEN_BRIEF \/ screen st = SCREEN_EMAILS
  \/ (screen st = SCREEN_FOCUS /\ focus_active st = false) ->
  (0 <= x <= 100 /\ 222 <= y <= 240 ->
   handle_touch x y st = (true, set_screen SCREEN_DASHBOARD st))
  /\ (~ (0 <= x <= 100 /\ 222 <= y <= 240) ->
      handle_touch x y st = (false, st)).
Proof.
  intros Hscreen.
  assert (Hd : String.eqb (screen st) SCREEN_DASHBOARD = false)
    by (destruct Hscreen as [-> | [-> | [-> _]]]; reflexivity).
  assert (Ha : String.eqb (screen st) SCREEN_APPS = false)
    by (destruct Hscreen as [-> | [-> | [-> _]]]; reflexivity).
  assert (Hs : String.eqb (screen st) SCREEN_SYSMON = false)
    by (destruct Hscreen as [-> | [-> | [-> _]]]; reflexivity).
  assert (Hf : String.eqb (screen st) SCREEN_FOCUS && focus_active st = false).
  { destruct Hscreen as [-> | [-> | [-> ->]]]; reflexivity. }
  destruct (handle_touch_sub_screen st x y Hd Ha) as [Hback Hother].
  rewrite Hs, Hf in Hback. rewrite Hs in Hother. cbn [andb] in Hother.
  split; assumption.
Qed.

Lemma plain_screen_touch_witness :
  handle_touch 100 222 (set_screen SCREEN_EMAILS init)
  = (true, set_screen SCREEN_DASHBOARD (set_screen SCREEN_EMAILS init))
  /\ handle_touch 101 222 (set_screen SCREEN_EMAILS init)
     = (false, set_screen SCREEN_EMAILS init).
Proof.
  destruct (plain_screen_touch (set_screen SCREEN_EMAILS init) 100 222)
    as [Hback _]; [right; left; reflexivity|].
  destruct (plain_screen_touch (set_screen SCREEN_EMAILS init) 101 222)
    as [_ Hother]; [right; left; reflexivity|].
  split; [apply Hback | apply Hother]; lia.
Defined.

(** ** The reported flag *)

Lemma if_true_hit_payload (x y : Z) (rs : list (region string)) (t : string) :
  if_true (hit_test x y rs) = Some t -> exists r, r ∈ rs /\ payload r = t.
Proof.
  unfold if_true. destruct (hit_test x y rs) as [p|] eqn:Hhit; [|discriminate].
  destruct (truthy_str p); [|discriminate]. intros [= <-].
  apply hit_test_Some in Hhit.
  destruct Hhit as (before & r & after & -> & _ & _ & Hp).
  exists r. split; [|exact Hp].
  apply elem_of_app. right. apply list_elem_of_here.
Qed.

Lemma if_true_back (x y : Z) (t : string) :
  if_true (hit_test x y BACK_REGION) = Some t -> t = SCREEN_DASHBOARD.
Proof.
  intros H. apply if_true_hit_payload in H. destruct H as (r & Hin & <-).
  unfold BACK_REGION in Hin. apply list_elem_of_singleton in Hin. subst r.
  reflexivity.
Qed.

Lemma set_screen_changes (v : string) (st st0 : AppState) :
  v <> screen st0 -> set_screen v st <> st0.
Proof. intros Hne Heq. apply Hne. rewrite <- Heq. reflexivity. Qed.

(** X15.  The flag [handle_touch] returns tells whether it changed the
    state: it is [False] exactly when the state is left as it was.  (On
    the apps screen this needs that no stored rectangle leads to the
    apps screen itself, as is the case for the rectangles of
    [render_apps].) *)
Theorem handle_touch_reports_change (st : AppState) (x y : Z) :
  (screen st = SCREEN_APPS ->
   Forall (fun r => payload r <> SCREEN_APPS) (apps_rects st)) ->
  (fst (handle_touch x y st) = false <-> snd (handle_touch x y st) = st).
Proof.
  intros Hrects. unfold handle_touch.
  destruct (String.eqb_spec (screen st) SCREEN_DASHBOARD) as [Hd|Hd].
  { destruct (if_true (hit_test x y DASHBOARD_PIE_REGION)) as [t|] eqn:Hhit;
      cbn [fst snd]; [|tauto].
    apply if_true_hit_payload in Hhit. destruct Hhit as (r & Hin & <-).
    unfold DASHBOARD_PIE_REGION in Hin. apply list_elem_of_singleton in Hin.
    subst r. cbn [payload].
    split; [discriminate|]. intros Heq. exfalso.
    revert Heq. apply set_screen_changes. rewrite Hd. discriminate. }
  destruct (String.eqb_spec (screen st) SCREEN_APPS) as [Ha|Ha].
  { destruct (if_true (hit_test x y (apps_rects st))) as [t|] eqn:Hhit;
      cbn [fst snd].
    - apply if_true_hit_payload in Hhit. destruct Hhit as (r & Hin & <-).
      split; [discriminate|]. intros Heq. exfalso.
      revert Heq. apply set_screen_changes. rewrite Ha.
      apply (proj1 (Forall_forall _ _) (Hrects Ha)), Hin.
    - destruct (if_true (hit_test x y BACK_REGION)) as [t|] eqn:Hback;
        cbn [fst snd]; [|tauto].
      apply if_true_back in Hback. subst t.
      split; [discriminate|]. intros Heq. exfalso.
      revert Heq. apply set_screen_changes. rewrite Ha. discriminate. }
  destruct (if_true (hit_test x y BACK_REGION)) as [t|] eqn:Hback;
    cbn [fst snd].
  - apply if_true_back in Hback. subst t.
    split; [discriminate|]. intros Heq. exfalso.
    revert Heq. apply set_screen_changes. congruence.
  - destruct (String.eqb (screen st) SCREEN_SYSMON), (clean_done st) eqn:Hc;
      cbn [andb negb fst snd]; try tauto.
    split; [discriminate|]. intros Heq.
    apply (f_equal clean_done) in Heq. cbn in Heq. congruence.
Qed.

Lemma handle_touch_reports_change_witness :
  let st := set_apps_rects render_apps_rects (set_screen SCREEN_APPS init) in
  fst (handle_touch 160 132 st) = false <-> snd (handle_touch 160 132 st) = st.
Proof.
  intros st. apply (handle_touch_reports_change st 160 132).
  intros _. subst st. cbn [apps_rects set_apps_rects].
  rewrite render_apps_rects_value. repeat constructor; discriminate.
Defined.

(** ** What the loop can reach *)

(** Evaluates the comparisons between screen names. *)
Ltac screen_names :=
  repeat match goal with
         | |- context [String.eqb ?a ?b] =>
             let v := eval vm_compute in (String.eqb a b) in
             change (String.eqb a b) with v
         end.

Ltac known :=
  unfold known_screen; cbn;
  repeat (first [reflexivity | left; reflexivity | right]).

Lemma handle_touch_keeps (st : AppState) (x y : Z) :
  known_screen (screen st) -> rects_in_step st -> focus_untouched st ->
  known_screen (screen (snd (handle_touch x y st)))
  /\ focus_untouched (snd (handle_touch x y st))
  /\ apps_rects (snd (handle_touch x y st)) = apps_rects st.
Proof.
  intros Hknown [Hstep _] (Hact & Hel & Hlen & Hmsg).
  unfold handle_touch, focus_untouched.
  destruct Hknown as [H|[H|[H|[H|[H|H]]]]]; rewrite H;
    try (rewrite (Hstep H), render_apps_rects_value);
    screen_names; rewrite ?Hact;
    unfold DASHBOARD_PIE_REGION, BACK_REGION; cbn [hit_test andb];
    repeat match goal with
           | |- context [inside ?a ?b ?r] => destruct (inside a b r)
           end;
    cbn [if_true payload truthy_str SCREEN_DASHBOARD SCREEN_APPS SCREEN_BRIEF
         SCREEN_EMAILS SCREEN_SYSMON SCREEN_FOCUS snd];
    try destruct (clean_done st);
    cbn [negb snd screen set_screen set_clean_done set_focus focus_active
         focus_elapsed_mins focus_session_mins focus_message apps_rects];
    (split; [try (rewrite H); known
            | split; [tauto | first [reflexivity | exact (Hstep H)]]]).
Qed.

Lemma build_ili_frame_keeps (st : AppState) :
  known_screen (screen st) ->
  (apps_rects st = [] \/ apps_rects st = render_apps_rects) ->
  fst (build_ili_frame st) <> RenderFallback
  /\ screen (snd (build_ili_frame st)) = screen st
  /\ rects_in_step (snd (build_ili_frame st))
  /\ (focus_untouched st -> focus_untouched (snd (build_ili_frame st))).
Proof.
  intros Hknown Hrects. unfold build_ili_frame, rects_in_step, focus_untouched.
  destruct st as [scr rects cd len el act msg].
  cbn [screen apps_rects clean_done focus_session_mins focus_elapsed_mins
       focus_active focus_message] in *.
  destruct Hknown as [H|[H|[H|[H|[H|H]]]]]; subst scr; screen_names;
    cbn [fst snd screen apps_rects set_apps_rects clean_done focus_session_mins
         focus_elapsed_mins focus_active focus_message];
    (split; [discriminate|]); (split; [reflexivity|]);
    (split; [|tauto]); (split; [|tauto]);
    intros Habs; try discriminate Habs; reflexivity.
Qed.

(** X16.  Starting from the state [main] sets up, whatever the clock
    readings and touches of the passes made so far: the screen is one of
    the six known screens, so [build_ili_frame] never falls through to
    its last [render_dashboard]; the rectangles stored for the apps
    screen are those of [render_apps] whenever that screen is shown; and
    no focus session is ever running, so the focus fields are as
    [AppState.__init__] set them and [tick_focus] has never advanced. *)
Theorem loop_reachable (ins : list inputs) :
  let s := run ins loop_init in
  known_screen (screen (state s))
  /\ rects_in_step (state s)
  /\ focus_untouched (state s)
  /\ _focus_last_tick s = 0%float
  /\ (forall i, fst (pass i s) <> RenderFallback).
Proof.
  assert (Hpass : forall i s,
             known_screen (screen (state s)) /\ rects_in_step (state s)
             /\ focus_untouched (state s) /\ _focus_last_tick s = 0%float ->
             fst (pass i s) <> RenderFallback
             /\ known_screen (screen (state (snd (pass i s))))
             /\ rects_in_step (state (snd (pass i s)))
             /\ focus_untouched (state (snd (pass i s)))
             /\ _focus_last_tick (snd (pass i s)) = 0%float).
  { intros i s (Hknown & Hstep & Hfocus & Htick). unfold pass.
    assert (Hidle : tick_focus (focus_clock i) (_focus_last_tick s) (state s)
                    = (_focus_last_tick s, state s)).
    { unfold tick_focus. rewrite (proj1 Hfocus). reflexivity. }
    rewrite Hidle.
    assert (Htouch : exists last st2 r,
               touch_poll (touch i) (touch_clock i) (last_touch_ms s) (state s)
               = (last, st2, r)
               /\ known_screen (screen st2) /\ focus_untouched st2
               /\ apps_rects st2 = apps_rects (state s)).
    { unfold touch_poll. destruct (touch i) as [[x y]|].
      - destruct (debounce_passes _ _).
        + destruct (handle_touch_keeps (state s) x y Hknown Hstep Hfocus)
            as (Hk & Hf & Hr).
          do 3 eexists. split; [reflexivity|]. auto.
        + do 3 eexists. split; [reflexivity|]. auto.
      - do 3 eexists. split; [reflexivity|]. auto. }
    destruct Htouch as (last & st2 & r & -> & Hk2 & Hf2 & Hr2).
    assert (Hrects2 : apps_rects st2 = [] \/ apps_rects st2 = render_apps_rects)
      by (rewrite Hr2; exact (proj2 Hstep)).
    destruct (build_ili_frame_keeps st2 Hk2 Hrects2) as (Hreq & Hscr & Hstep3 & Hf3).
    destruct (build_ili_frame st2) as [req st3]. cbn [fst snd state _focus_last_tick] in *.
    rewrite Hscr.
    split; [exact Hreq|]. split; [exact Hk2|]. split; [exact Hstep3|].
    split; [exact (Hf3 Hf2) | exact Htick]. }
  unfold run.
  assert (Hinit : known_screen (screen (state loop_init))
                  /\ rects_in_step (state loop_init)
                  /\ focus_untouched (state loop_init)
                  /\ _focus_last_tick loop_init = 0%float).
  { split; [left; reflexivity|]. split; [|split; [repeat split|reflexivity]].
    split; [discriminate | left; reflexivity]. }
  revert Hinit. generalize loop_init as s.
  induction ins as [|i ins IH]; intros s Hinv; cbn [fold_left].
  - destruct Hinv as (Hk & Hs & Hf & Ht).
    repeat (split; [assumption|]).
    intros i. apply Hpass. auto.
  - apply IH. apply (Hpass i s Hinv).
Qed.

(** ** The frame rate cap *)

Lemma ltb_zero_nonzero (v : float) :
  PrimFloat.ltb 0%float v = true -> PrimFloat.eqb v 0%float = false.
Proof.
  rewrite FloatAxioms.ltb_spec, FloatAxioms.eqb_spec.
  change (Prim2SF 0%float) with (S754_zero false).
  destruct (Prim2SF v) as [s|s| |s m e]; cbn; try discriminate;
    destruct s; intros H; try discriminate H; reflexivity.
Qed.

(** X17.  At the end of a pass the loop sleeps only for a strictly
    positive time, namely what is left of the frame interval (1/10 s)
    after the time the pass took; when the pass took the whole interval
    or more (or the clock readings give no number) it does not sleep at
    all.  [time.sleep] is never given a negative value or a NaN. *)
Theorem frame_sleep_positive (loop_start now : float) :
  let left := PrimFloat.sub frame_interval (PrimFloat.sub now loop_start) in
  (PrimFloat.ltb 0%float left = true ->
   frame_sleep loop_start now = Some left)
  /\ (PrimFloat.ltb 0%float left = false ->
      frame_sleep loop_start now = None)
  /\ (forall t, frame_sleep loop_start now = Some t ->
                PrimFloat.ltb 0%float t = true /\ t = left).
Proof.
  intros left. unfold frame_sleep, max_float. fold left.
  destruct (PrimFloat.ltb 0%float left) eqn:Hpos.
  - assert (Htruthy : truthy_float left = true).
    { unfold truthy_float. rewrite (ltb_zero_nonzero left Hpos). reflexivity. }
    rewrite Htruthy. split; [reflexivity|]. split; [discriminate|].
    intros t [= <-]. auto.
  - change (truthy_float 0%float) with false.
    split; [discriminate|]. split; [reflexivity|]. discriminate.
Qed.

(** A pass that took 1/32 s leaves the rest of the tenth of a second to
    sleep; one that took a quarter of a second leaves nothing. *)
Example frame_sleep_examples :
  frame_sleep 10%float 10.03125%float
  = Some (PrimFloat.sub frame_interval 0.03125%float)
  /\ frame_sleep 10%float 10.25%float = None.
Proof. vm_compute. repeat split. Qed.

(** ** C5: the debounce window, in the loop of [main] *)

(** A pass whose touch passes the debounce routes it and takes its
    time. *)
Lemma pass_touch_routed (i : inputs) (s : loop_state) (x y : Z) :
  touch i = Some (x, y) ->
  debounce_passes (now_ms (touch_clock i)) (last_touch_ms s) = true ->
  pass_routed i s = Some (now_ms (touch_clock i), x, y)
  /\ last_touch_ms (snd (pass i s)) = now_ms (touch_clock i)
  /\ state (snd (pass i s))
     = snd (build_ili_frame
              (snd (handle_touch x y
                      (snd (tick_focus (focus_clock i) (_focus_last_tick s)
                                       (state s)))))).
Proof.
  intros Htouch Hpass. unfold pass_routed, pass. rewrite Htouch.
  destruct (tick_focus _ _ _) as [tick st1]. cbn [snd].
  rewrite (touch_poll_passes x y _ _ st1 Hpass).
  destruct (build_ili_frame _) as [req st3]. cbn. auto.
Qed.

(** A pass whose touch is held back goes exactly as a pass that found no
    touch. *)
Lemma pass_touch_held_back (i : inputs) (s : loop_state) :
  (touch i <> None ->
   debounce_passes (now_ms (touch_clock i)) (last_touch_ms s) = false) ->
  pass_routed i s = None
  /\ pass i s = pass (untouched (focus_clock i) (touch_clock i)) s
  /\ last_touch_ms (snd (pass i s)) = last_touch_ms s.
Proof.
  intros Hheld. unfold pass_routed, pass, untouched.
  cbn [focus_clock touch touch_clock].
  destruct (tick_focus _ _ _) as [tick st1].
  rewrite (touch_poll_held_back (touch i) _ _ st1 Hheld).
  cbn [touch_poll snd].
  destruct (build_ili_frame st1) as [req st3]. cbn. auto.
Qed.


(** The routed calls and the last timestamp of the loop do not depend on
    the application state: they are those of [touch_loop] on the same
    touches, from any state. *)
Lemma touch_loop_routes_as_run (ins : list inputs) :
  forall s st,
    snd (touch_loop (map (fun i => (touch i, touch_clock i)) ins)
                    (last_touch_ms s) st)
    = fst (run_log ins s)
    /\ fst (fst (touch_loop (map (fun i => (touch i, touch_clock i)) ins)
                            (last_touch_ms s) st))
       = last_touch_ms (snd (run_log ins s)).
Proof.
  induction ins as [|i rest IH]; intros s st; [cbn; auto|].
  cbn [map touch_loop run_log].
  destruct (touch i) as [[x y]|] eqn:Htouch.
  - destruct (debounce_passes (now_ms (touch_clock i)) (last_touch_ms s)) eqn:Hpass.
    + destruct (pass_touch_routed i s x y Htouch Hpass) as (-> & Hlast & _).
      rewrite (touch_poll_passes x y _ _ st Hpass).
      specialize (IH (snd (pass i s)) (snd (handle_touch x y st))).
      rewrite Hlast in IH.
      destruct (touch_loop _ _ _) as [[l st'] rs].
      destruct (run_log rest _) as [rs' s']. cbn [fst snd] in *.
      destruct IH as [-> ->]. auto.
    + destruct (pass_touch_held_back i s) as (-> & _ & Hlast);
        [intros _; exact Hpass|].
      rewrite (touch_poll_held_back (Some (x, y)) _ _ st) by (intros _; exact Hpass).
      specialize (IH (snd (pass i s)) st). rewrite Hlast in IH.
      destruct (touch_loop _ _ _) as [[l st'] rs].
      destruct (run_log rest _) as [rs' s']. cbn [fst snd] in *.
      destruct IH as [-> ->]. auto.
  - destruct (pass_touch_held_back i s) as (-> & _ & Hlast);
      [rewrite Htouch; intros H; contradiction|].
    cbn [touch_poll].
    specialize (IH (snd (pass i s)) st). rewrite Hlast in IH.
    destruct (touch_loop _ _ _) as [[l st'] rs].
    destruct (run_log rest _) as [rs' s']. cbn [fst snd] in *.
    destruct IH as [-> ->]. auto.
Qed.




(** The same with the second touch 350 ms after the first (read at
    1.35 s, the double [0x1.599999999999ap+0]): both are routed, the first
    opening the apps screen and the second, on the mail tile, the mail
    screen. *)
Example debounce_350_routes_both :
  PrimFloat.sub (now_ms 0x1.599999999999ap+0) (now_ms 1) = 350%float
  /\ fst (run_log [touched 0 50 120 1; touched 0 50 120 0x1.599999999999ap+0]
                  loop_init)
     = [(1000%float, 50, 120); (1350%float, 50, 120)]
  /\ screen (state (run [touched 0 50 120 1] loop_init)) = SCREEN_APPS
  /\ screen (state (run [touched 0 50 120 1; touched 0 50 120 0x1.599999999999ap+0]
                        loop_init)) = SCREEN_EMAILS.
Proof. vm_compute. repeat split. Qed.
